(** * Campus Air Quality Monitor: the local web server (app.py)

    A shallow embedding of [app.py]: the Flask routes of [create_app],
    the delayed browser task [open_browser] and the start-up sequence
    [main], with the few primitives of the Python library and of Flask that
    the script calls ([str.split], [posixpath.normpath], [posixpath.join],
    [werkzeug.security.safe_join], [send_from_directory], [Path.exists]).

    The library primitives follow the libraries' own definitions; the
    views, [open_browser] and [main] follow [app.py] line by line.

    Scope of the model.
    - The host is a POSIX system.  The file system has no symbolic links and
      no permissions (every file can be read), and a path string is read as
      text: [.] and empty components are dropped and [..] undoes the name
      before it, whether or not that name exists.
    - A request is an unconditional GET: its decoded path.  Conditional and
      range requests and other methods are outside the model.
    - [__file__] is an absolute path with one leading slash, and [main] is
      entered with Flask imported ([app_py] has the import guard). *)

From Stdlib Require Import String Ascii List Bool ZArith Lia.
Import ListNotations.
Open Scope string_scope.
Open Scope list_scope.

#[local] Arguments Ascii.eqb : simpl never.
#[local] Arguments String.eqb : simpl never.

(** ** Python strings *)

Module Str.

Definition slash : ascii := "/"%char.
Definition newline : ascii := "010"%char.

(** [s.startswith(p)] *)
Fixpoint startswith (p s : string) : bool :=
  match p, s with
  | EmptyString, _ => true
  | String a p', String b s' => Ascii.eqb a b && startswith p' s'
  | String _ _, EmptyString => false
  end.

(** [s.endswith("/")] *)
Fixpoint endswith_slash (s : string) : bool :=
  match s with
  | EmptyString => false
  | String c EmptyString => Ascii.eqb c slash
  | String _ r => endswith_slash r
  end.

(** [s.lstrip("/")] *)
Fixpoint lstrip_slashes (s : string) : string :=
  match s with
  | EmptyString => EmptyString
  | String c r => if Ascii.eqb c slash then lstrip_slashes r else s
  end.

(** [s.removeprefix(p)] when [s.startswith(p)], nothing otherwise *)
Fixpoint strip_prefix (p s : string) : option string :=
  match p, s with
  | EmptyString, _ => Some s
  | String a p', String b s' =>
      if Ascii.eqb a b then strip_prefix p' s' else None
  | String _ _, EmptyString => None
  end.

(** [c in s] for a character *)
Fixpoint contains (c : ascii) (s : string) : bool :=
  match s with
  | EmptyString => false
  | String d r => Ascii.eqb c d || contains c r
  end.

(** [s.split("/")]: always at least one field *)
Fixpoint split (s : string) : list string :=
  match s with
  | EmptyString => [EmptyString]
  | String c r =>
      if Ascii.eqb c slash then EmptyString :: split r
      else match split r with
           | h :: t => String c h :: t
           | [] => [String c EmptyString]
           end
  end.

(** ["/".join(l)] *)
Fixpoint join (l : list string) : string :=
  match l with
  | [] => EmptyString
  | [x] => x
  | x :: r => (x ++ String slash (join r))%string
  end.

End Str.

(** ** posixpath *)

Module posixpath.

Definition curdir (c : string) : bool := String.eqb c "" || String.eqb c ".".
Definition pardir (c : string) : bool := String.eqb c "..".

(** The loop of [normpath].  [new_comps] is kept with its last element
    first, so that [append] is a cons and [pop] a tail. *)
Fixpoint normpath_loop (initial_slashes : nat) (comps new_comps : list string)
  : list string :=
  match comps with
  | [] => new_comps
  | comp :: rest =>
      if curdir comp then normpath_loop initial_slashes rest new_comps
      else
        let top_is_pardir :=
          match new_comps with top :: _ => pardir top | [] => false end in
        let empty := match new_comps with [] => true | _ => false end in
        if negb (pardir comp)
           || (Nat.eqb initial_slashes 0 && empty)
           || (negb empty && top_is_pardir)
        then normpath_loop initial_slashes rest (comp :: new_comps)
        else
          match new_comps with
          | _ :: popped => normpath_loop initial_slashes rest popped
          | [] => normpath_loop initial_slashes rest new_comps
          end
  end.

(** POSIX gives a meaning of its own to exactly two leading slashes. *)
Definition initial_slashes (path : string) : nat :=
  if Str.startswith "/" path then
    if Str.startswith "//" path && negb (Str.startswith "///" path) then 2
    else 1
  else 0.

Fixpoint seps (n : nat) : string :=
  match n with O => "" | S k => String Str.slash (seps k) end.

Definition normpath (path : string) : string :=
  if String.eqb path "" then "."
  else
    let i := initial_slashes path in
    let comps := rev (normpath_loop i (Str.split path) []) in
    let path := (seps i ++ Str.join comps)%string in
    if String.eqb path "" then "." else path.

Definition isabs (s : string) : bool := Str.startswith "/" s.

(** [posixpath.join(a, b)] *)
Definition join (a b : string) : string :=
  if Str.startswith "/" b then b
  else if String.eqb a "" || Str.endswith_slash a then (a ++ b)%string
  else (a ++ String Str.slash b)%string.

End posixpath.

(** ** The file system *)

Definition bytes := list Byte.byte.

Inductive entry : Set :=
| File (content : bytes)
| Dir.

(** One entry at most per canonical path (the names from the root down). *)
Definition filesystem := list string -> option entry.

Module os.

(** Walking one component from the directory [cur]. *)
Definition step (cur : list string) (comp : string) : list string :=
  if posixpath.curdir comp then cur
  else if posixpath.pardir comp then removelast cur
  else cur ++ [comp].

Definition walk (cur : list string) (comps : list string) : list string :=
  fold_left step comps cur.

(** The canonical path an absolute path string denotes, read as text. *)
Definition canonical (p : string) : list string := walk [] (Str.split p).

Definition stat (fs : filesystem) (p : string) : option entry :=
  fs (canonical p).

(** [os.path.isfile] *)
Definition isfile (fs : filesystem) (p : string) : bool :=
  match stat fs p with Some (File _) => true | _ => false end.

(** [os.path.exists] *)
Definition exists_ (fs : filesystem) (p : string) : bool :=
  match stat fs p with Some _ => true | None => false end.

End os.

(** ** pathlib *)

Module pathlib.

(** A [Path] is its parts below the root. *)
Definition Path := list string.

Definition parts_of (s : string) : list string :=
  filter (fun c => negb (posixpath.curdir c)) (Str.split s).

(** [Path(s)] *)
Definition of_string (s : string) : Path := parts_of s.

(** [p.parent] *)
Definition parent (p : Path) : Path := removelast p.

(** [p / s] *)
Definition truediv (p : Path) (s : string) : Path :=
  if Str.startswith "/" s then parts_of s else p ++ parts_of s.

(** Every part behind a slash. *)
Fixpoint slashed (p : Path) : string :=
  match p with
  | [] => ""
  | c :: r => String Str.slash (c ++ slashed r)
  end.

(** [os.fspath(p)] *)
Definition fspath (p : Path) : string :=
  match p with
  | [] => "/"
  | _ => slashed p
  end.

(** [p.exists()] *)
Definition exists_ (fs : filesystem) (p : Path) : bool :=
  os.exists_ fs (fspath p).

End pathlib.

Notation "p // s" := (pathlib.truediv p s) (at level 40, left associativity).

(** ** Werkzeug and Flask *)

(** What a response carries: the bytes of a file, the error page that the
    framework renders for the status, or the page of a redirect with the
    path it points to. *)
Inductive payload : Set :=
| Content (data : bytes)
| ErrorPage
| RedirectPage (location : string).

Record response : Set := mkResponse { status : Z; body : payload }.

Module werkzeug.

(** [safe_join(directory, filename)] on a POSIX host (no alternative
    separators).  For an empty file name the result ends with a slash; later
    releases of the library leave the slash out, and the path denotes the
    directory either way. *)
Definition safe_join (directory filename : string) : option string :=
  let directory := if String.eqb directory "" then "." else directory in
  let filename :=
    if negb (String.eqb filename "") then posixpath.normpath filename
    else filename in
  if posixpath.isabs filename
     || Str.startswith "/" filename
     || String.eqb filename ".."
     || Str.startswith "../" filename
  then None
  else Some (posixpath.join directory filename).

(** The response that answers a raised [NotFound]. *)
Definition NotFound : response := mkResponse 404 ErrorPage.

(** [send_file(path)] for an unconditional request and a file that can be
    read: the bytes of the file, status 200. *)
Definition send_file (fs : filesystem) (path_str : string) : response :=
  match os.stat fs path_str with
  | Some (File content) => mkResponse 200 (Content content)
  | _ => NotFound
  end.

(** [send_from_directory(directory, path)]: the join with the root path of
    the application leaves an absolute directory as it is. *)
Definition send_from_directory (fs : filesystem)
    (directory : pathlib.Path) (path : string) : response :=
  match safe_join (pathlib.fspath directory) path with
  | None => NotFound
  | Some path_str =>
      if negb (os.isfile fs path_str) then NotFound
      else send_file fs path_str
  end.

(** The [path] converter of a rule, the regular expression [[^/].*?]:
    a first character that is not a slash, then anything but a line feed. *)
Definition path_converter (s : string) : bool :=
  match s with
  | EmptyString => false
  | String c r => negb (Ascii.eqb c Str.slash) && negb (Str.contains Str.newline r)
  end.

(** The response that answers a raised [RequestRedirect]. *)
Definition RequestRedirect (new_path : string) : response :=
  mkResponse 308 (RedirectPage new_path).

(** [re.sub("/{2,}?", "/", path)]: from the left, each pair of slashes
    becomes one slash. *)
Fixpoint merge_slashes (path : string) : string :=
  match path with
  | EmptyString => EmptyString
  | String a t =>
      match t with
      | EmptyString => path
      | String b r =>
          if Ascii.eqb a Str.slash && Ascii.eqb b Str.slash
          then String Str.slash (merge_slashes r)
          else String a (merge_slashes t)
      end
  end.

(** The path that the URL map matches: the leading slashes of [PATH_INFO]
    count as one. *)
Definition path_part (path_info : string) : string :=
  String Str.slash (Str.lstrip_slashes path_info).

End werkzeug.

(** ** create_app *)

Section App.

Variable fs : filesystem.

(** [Path(__file__).parent] *)
Variable project_root : pathlib.Path.

Definition index : response :=
  werkzeug.send_from_directory fs (project_root // "pages") "index.html".

Definition dashboard : response :=
  werkzeug.send_from_directory fs (project_root // "pages") "dashboard.html".

Definition dashboard_with_location (location : string) : response :=
  werkzeug.send_from_directory fs (project_root // "pages") "dashboard.html".

Definition js_files (filename : string) : response :=
  werkzeug.send_from_directory fs (project_root // "js") filename.

Definition data_files (filename : string) : response :=
  werkzeug.send_from_directory fs (project_root // "data") filename.

(** The view that [Flask(__name__)] adds for the [static] folder beside the
    script. *)
Definition send_static_file (filename : string) : response :=
  werkzeug.send_from_directory fs (project_root // "static") filename.

(** The view function a rule selects, with its argument. *)
Inductive endpoint : Set :=
| ep_index
| ep_dashboard
| ep_dashboard_with_location (location : string)
| ep_js_files (filename : string)
| ep_data_files (filename : string)
| ep_static (filename : string).

(** A rule with a [<path:...>] argument after the prefix [prefix]. *)
Definition match_path_rule (prefix path_info : string) : option string :=
  match Str.strip_prefix prefix path_info with
  | Some arg => if werkzeug.path_converter arg then Some arg else None
  | None => None
  end.

(** The rules of the application: the five [@app.route] decorators and the
    rule [/static/<path:filename>] of [Flask(__name__)].  No two rules match
    the same path, so the order of the tests is immaterial. *)
Definition match_path (path : string) : option endpoint :=
  if String.eqb path "/" then Some ep_index
  else if String.eqb path "/dashboard" then Some ep_dashboard
  else
    match match_path_rule "/dashboard/" path with
    | Some location => Some (ep_dashboard_with_location location)
    | None =>
        match match_path_rule "/js/" path with
        | Some filename => Some (ep_js_files filename)
        | None =>
            match match_path_rule "/data/" path with
            | Some filename => Some (ep_data_files filename)
            | None =>
                match match_path_rule "/static/" path with
                | Some filename => Some (ep_static filename)
                | None => None
                end
            end
        end
    end.

(** The URL map on the [PATH_INFO] of a request. *)
Definition url_map (path_info : string) : option endpoint :=
  match_path (werkzeug.path_part path_info).

Definition view (e : endpoint) : response :=
  match e with
  | ep_index => index
  | ep_dashboard => dashboard
  | ep_dashboard_with_location location => dashboard_with_location location
  | ep_js_files filename => js_files filename
  | ep_data_files filename => data_files filename
  | ep_static filename => send_static_file filename
  end.

(** The answer of the application to [GET path_info] when a rule matches
    and a view is called; [None] when the URL map calls no view. *)
Definition get (path_info : string) : option response :=
  option_map view (url_map path_info).

(** What matching a request comes to. *)
Inductive routed : Set :=
| Matched (e : endpoint)
| Redirected (new_path : string)
| NoMatch.

(** The matcher of the URL map: when no rule matches the path it is tried
    again with its slashes merged, and a match then is a redirect to the
    merged path. *)
Definition route (path_info : string) : routed :=
  match url_map path_info with
  | Some e => Matched e
  | None =>
      let merged := werkzeug.merge_slashes (werkzeug.path_part path_info) in
      match match_path merged with
      | Some _ => Redirected merged
      | None => NoMatch
      end
  end.

(** The answer of the application to [GET path_info], in every case: the
    response of the view, a permanent redirect, or [NotFound]. *)
Definition full_dispatch_request (path_info : string) : response :=
  match route path_info with
  | Matched e => view e
  | Redirected new_path => werkzeug.RequestRedirect new_path
  | NoMatch => werkzeug.NotFound
  end.

End App.

(** ** Vocabulary of the router's specification *)

(** No prefix of the components steps above the directory the walk starts
    in, [depth] levels below it: every [..] undoes a name before it. *)
Fixpoint climb_free (depth : nat) (comps : list string) : bool :=
  match comps with
  | [] => true
  | comp :: rest =>
      if posixpath.curdir comp then climb_free depth rest
      else if posixpath.pardir comp then
        match depth with
        | O => false
        | S d => climb_free d rest
        end
      else climb_free (S depth) rest
  end.

(** [filename] is relative and never steps above its base directory. *)
Definition stays_inside (filename : string) : bool :=
  negb (Str.startswith "/" filename) && climb_free 0 (Str.split filename).

(** The entry that [filename] denotes when it is taken from [directory]
    and read as text. *)
Definition resolve (directory : pathlib.Path) (filename : string) : list string :=
  os.canonical (posixpath.join (pathlib.fspath directory) filename).

Fixpoint is_prefix (base p : list string) : bool :=
  match base, p with
  | [], _ => true
  | b :: base', c :: p' => String.eqb b c && is_prefix base' p'
  | _ :: _, [] => false
  end.

(** The canonical path [p] lies in the directory [directory] (or is it). *)
Definition inside (directory : pathlib.Path) (p : list string) : bool :=
  is_prefix (os.canonical (pathlib.fspath directory)) p.

(** The resolved path of [filename] leaves the base directory. *)
Definition escapes (directory : pathlib.Path) (filename : string) : bool :=
  negb (inside directory (resolve directory filename)).

(** One non-empty segment, or several separated by slashes. *)
Definition sub_path (X : string) : bool :=
  forallb (fun s => negb (String.eqb s "")) (Str.split X).

(** [X] has a line feed after its first character. *)
Definition interior_line_feed (X : string) : bool :=
  match X with
  | EmptyString => false
  | String _ r => Str.contains Str.newline r
  end.

(** ** Components *)

Definition slash_free (c : string) : bool := negb (Str.contains Str.slash c).

(** A component that names an entry: no slash, and none of [""], ["."], [".."]. *)
Definition plain (c : string) : bool :=
  slash_free c && negb (posixpath.curdir c) && negb (posixpath.pardir c).

(** A component other than [..]. *)
Definition named (c : string) : bool := negb (posixpath.pardir c).

(** ** Effects of the start-up script *)

Inductive exn : Set :=
| KeyboardInterrupt
| SystemExit (code : Z)
| Exception (message : string).

(** The function a thread runs. *)
Inductive target : Set :=
| target_open_browser.

Inductive event : Set :=
| Stat (path : string)                          (* [Path.exists] *)
| Print (line : string)                         (* [print] *)
| ThreadStart (f : target) (daemon : bool)      (* [threading.Thread(...).start()] *)
| AppRun (host : string) (port : Z) (debug : bool)  (* [app.run] is called *)
| Sleep (milliseconds : Z)                      (* [time.sleep] *)
| WebbrowserOpen (url : string).                (* [webbrowser.open] *)

Record world : Type := mkWorld { w_fs : filesystem; w_trace : list event }.

(** A statement: it changes the world and ends normally or raises. *)
Definition M (A : Type) : Type := world -> world * (A + exn).

Definition ret {A} (a : A) : M A := fun w => (w, inl a).

Definition bind {A B} (m : M A) (k : A -> M B) : M B :=
  fun w => match m w with
           | (w', inl a) => k a w'
           | (w', inr e) => (w', inr e)
           end.

Definition raise {A} (e : exn) : M A := fun w => (w, inr e).

Notation "x <- m ;; k" := (bind m (fun x => k))
  (at level 61, m at next level, right associativity).
Notation "m ;; k" := (bind m (fun _ => k))
  (at level 61, right associativity).

Definition emit (e : event) : M unit :=
  fun w => (mkWorld (w_fs w) (w_trace w ++ [e]), inl tt).

(** [try: body except ...]: [handler e] is the clause that catches [e], if
    one does; what a clause raises is not caught again. *)
Definition try_except {A} (body : M A) (handler : exn -> option (M A)) : M A :=
  fun w => match body w with
           | (w', inl a) => (w', inl a)
           | (w', inr e) =>
               match handler e with
               | Some h => h w'
               | None => (w', inr e)
               end
           end.

(** [for x in l: body], the local variables of the body in [s]. *)
Fixpoint for_ {A S} (l : list A) (body : A -> S -> M S) (s : S) : M S :=
  match l with
  | [] => ret s
  | x :: r => s' <- body x s ;; for_ r body s'
  end.

Definition print (line : string) : M unit := emit (Print line).

Definition sys_exit {A} (code : Z) : M A := raise (SystemExit code).

Definition time_sleep (milliseconds : Z) : M unit := emit (Sleep milliseconds).

Definition path_exists (p : pathlib.Path) : M bool :=
  fun w => (mkWorld (w_fs w) (w_trace w ++ [Stat (pathlib.fspath p)]),
            inl (pathlib.exists_ (w_fs w) p)).

(** What the host does when asked to open a browser. *)
Inductive open_result : Set :=
| OpenReturns (launched : bool)
| OpenRaises (message : string).

(** What becomes of the call [app.run(...)]:
    - the server is shut down and the call returns;
    - a [KeyboardInterrupt] leaves the call (the interrupt comes while the
      server is being set up, before it serves);
    - an [Exception] leaves the call;
    - the operator interrupts the server while it serves;
    - the port is taken and the socket cannot be bound. *)
Inductive run_result : Set :=
| RunReturns
| RunInterrupted
| RunFails (message : string)
| RunInterruptedServing
| RunAddressInUse.

Record environment : Set := mkEnv {
  script : string;             (* [__file__], absolute *)
  browser : open_result;
  serving : run_result
}.

Definition webbrowser_open (env : environment) (url : string) : M bool :=
  emit (WebbrowserOpen url) ;;
  match browser env with
  | OpenReturns launched => ret launched
  | OpenRaises message => raise (Exception message)
  end.

(** [serve_forever] of the development server: an interrupt of the loop is
    caught there and ends the loop. *)
Definition serve_forever (loop : M unit) : M unit :=
  try_except loop
    (fun e =>
       match e with
       | KeyboardInterrupt => Some (ret tt)
       | _ => None
       end).

(** [app.run(host, port, debug)].  When the socket cannot be bound the
    server writes the reason to the standard error stream and calls
    [sys.exit(1)]. *)
Definition app_run (env : environment) (host : string) (port : Z) (debug : bool)
  : M unit :=
  emit (AppRun host port debug) ;;
  match serving env with
  | RunReturns => serve_forever (ret tt)
  | RunInterrupted => raise KeyboardInterrupt
  | RunFails message => raise (Exception message)
  | RunInterruptedServing => serve_forever (raise KeyboardInterrupt)
  | RunAddressInUse => sys_exit 1
  end.

(** ** open_browser *)

Definition open_browser (env : environment) : M unit :=
  time_sleep 1500 ;;
  try_except
    (_ <- webbrowser_open env "http://localhost:5000" ;;
     print "Browser opened successfully!")
    (fun e =>
       match e with
       | Exception e =>
           Some (print ("Could not open browser automatically: " ++ e) ;;
                 print "Please open http://localhost:5000 in your browser")
       | _ => None
       end).

(** ** main *)

Definition required_files : list string :=
  ["pages/index.html"; "pages/dashboard.html"; "js/data-manager.js";
   "data/locations.json"].

Definition banner : list string :=
  ["🌬️  Campus Air Quality Monitor";
   "==============================";
   "";
   "Starting local web server...";
   "Server will be available at: http://localhost:5000";
   "";
   "Navigation:";
   "- Home Page: http://localhost:5000";
   "- Dashboard: Click location cards to view real-time data";
   "";
   "Features:";
   "- Real-time CO2 and humidity monitoring";
   "- Add/edit/delete locations";
   "- Historical data charts";
   "- ThingSpeak API integration";
   "";
   "Press Ctrl+C to stop the server";
   ""].

Definition project_root_of (env : environment) : pathlib.Path :=
  pathlib.parent (pathlib.of_string (script env)).

(** [create_app()]: the application, by the view that its URL map calls. *)
Definition create_app (env : environment) (fs : filesystem)
  : string -> option response :=
  get fs (project_root_of env).

Definition main (env : environment) : M unit :=
  let project_root := project_root_of env in
  missing_files <-
    for_ required_files
      (fun file_path missing_files =>
         let full_path := project_root // file_path in
         found <- path_exists full_path ;;
         if negb found then ret (missing_files ++ [file_path])
         else ret missing_files)
      [] ;;
  (match missing_files with
   | _ :: _ =>
       print "Error: Missing required files!" ;;
       for_ missing_files (fun file _ => print ("  - " ++ file)) tt ;;
       sys_exit 1
   | [] => ret tt
   end) ;;
  for_ banner (fun line _ => print line) tt ;;
  try_except
    (let app := create_app env in
     emit (ThreadStart target_open_browser true) ;;
     print "Starting server on http://localhost:5000..." ;;
     app_run env "localhost" 5000 false)
    (fun e =>
       match e with
       | KeyboardInterrupt =>
           Some (print (String Str.newline "👋 Server stopped by user") ;;
                 print "Thanks for using Campus Air Quality Monitor!")
       | Exception e =>
           Some (print ("❌ Error starting server: " ++ e) ;;
                 sys_exit 1)
       | SystemExit _ => None
       end).

(** The exit status of [python app.py]. *)
Definition exit_status (r : unit + exn) : Z :=
  match r with
  | inl _ => 0
  | inr (SystemExit code) => code
  | inr KeyboardInterrupt => 130
  | inr (Exception _) => 1
  end.

(** The process at its start: nothing has happened yet. *)
Definition start (fs : filesystem) : world := mkWorld fs [].

Definition run_main (env : environment) (fs : filesystem) : world * Z :=
  let (w, r) := main env (start fs) in (w, exit_status r).

(** ** The module body of app.py *)

(** The script from its first line: the guarded import of Flask, the
    definitions, and [main()] under the [__name__] guard.  [flask_installed]
    says whether [from flask import ...] succeeds; [name] is [__name__]. *)
Definition app_py (flask_installed : bool) (name : string) (env : environment)
  : M unit :=
  (if flask_installed then ret tt
   else
     print "Error: Flask is required to run this application." ;;
     print "Install it with: pip install flask" ;;
     sys_exit 1) ;;
  if String.eqb name "__main__" then main env else ret tt.

Definition run_app_py (flask_installed : bool) (name : string)
    (env : environment) (fs : filesystem) : world * Z :=
  let (w, r) := app_py flask_installed name env (start fs) in (w, exit_status r).

(** Each required file with the path that is expected to serve it. *)
Definition served_at : list (string * string) :=
  [("pages/index.html", "/");
   ("pages/dashboard.html", "/dashboard");
   ("js/data-manager.js", "/js/data-manager.js");
   ("data/locations.json", "/data/locations.json")].

(** The answer that an entry of the file system deserves. *)
Definition answer_of (e : option entry) : response :=
  match e with
  | Some (File b) => mkResponse 200 (Content b)
  | _ => werkzeug.NotFound
  end.

(** ** Vocabulary of the start-up's specification *)

(** The existence checks of the four required files, in order. *)
Definition checks (project_root : pathlib.Path) : list event :=
  map (fun f => Stat (pathlib.fspath (project_root // f))) required_files.

(** The required files that are absent. *)
Definition missing_of (fs : filesystem) (project_root : pathlib.Path) : list string :=
  filter (fun f => negb (pathlib.exists_ fs (project_root // f))) required_files.

(** What is printed once serving has ended. *)
Definition ending (s : run_result) : list event :=
  match s with
  | RunReturns => []
  | RunInterrupted =>
      [Print (String Str.newline "👋 Server stopped by user");
       Print "Thanks for using Campus Air Quality Monitor!"]
  | RunFails message => [Print ("❌ Error starting server: " ++ message)]
  | RunInterruptedServing => []
  | RunAddressInUse => []
  end.

(** How [main] ends once serving has ended. *)
Definition outcome (s : run_result) : unit + exn :=
  match s with
  | RunReturns | RunInterrupted | RunInterruptedServing => inl tt
  | RunFails _ | RunAddressInUse => inr (SystemExit 1)
  end.

(** The events of a start-up that passed validation, up to serving. *)
Definition startup (project_root : pathlib.Path) : list event :=
  checks project_root ++ map Print banner
  ++ [ThreadStart target_open_browser true;
      Print "Starting server on http://localhost:5000...";
      AppRun "localhost" 5000 false].

Definition is_app_run (e : event) : bool :=
  match e with AppRun _ _ _ => true | _ => false end.

Definition is_thread_start (e : event) : bool :=
  match e with ThreadStart _ _ => true | _ => false end.

Definition is_webbrowser_open (e : event) : bool :=
  match e with WebbrowserOpen _ => true | _ => false end.

(** The entry at a canonical path is a regular file. *)
Definition fs_entry_is_file (fs : filesystem) (p : list string) : bool :=
  match fs p with Some (File _) => true | _ => false end.

(** ** A sample installation *)

Module Sample.

(** The file system given by a table of its entries. *)
Definition fs_of (table : list (list string * entry)) : filesystem :=
  fun p =>
    match find (fun kv => if list_eq_dec string_dec (fst kv) p then true else false)
               table with
    | Some kv => Some (snd kv)
    | None => None
    end.

Definition root : pathlib.Path := ["srv"; "app"].

Definition html : bytes := [Byte.x3c; Byte.x68; Byte.x31; Byte.x3e].
Definition board : bytes := [Byte.x3c; Byte.x70; Byte.x3e].
Definition js : bytes := [Byte.x2f; Byte.x2f].
Definition json : bytes := [Byte.x5b; Byte.x5d].
Definition py : bytes := [Byte.x23; Byte.x21].

(** The repository as it is checked out under [/srv/app]. *)
Definition installed : filesystem :=
  fs_of [ (["srv"; "app"], Dir);
          (["srv"; "app"; "app.py"], File py);
          (["srv"; "app"; "pages"], Dir);
          (["srv"; "app"; "pages"; "index.html"], File html);
          (["srv"; "app"; "pages"; "dashboard.html"], File board);
          (["srv"; "app"; "js"], Dir);
          (["srv"; "app"; "js"; "data-manager.js"], File js);
          (["srv"; "app"; "data"], Dir);
          (["srv"; "app"; "data"; "locations.json"], File json) ].

(** The same with two of the required files gone. *)
Definition incomplete : filesystem :=
  fs_of [ (["srv"; "app"], Dir);
          (["srv"; "app"; "app.py"], File py);
          (["srv"; "app"; "pages"], Dir);
          (["srv"; "app"; "pages"; "index.html"], File html);
          (["srv"; "app"; "js"], Dir);
          (["srv"; "app"; "js"; "data-manager.js"], File js);
          (["srv"; "app"; "data"], Dir) ].

(** The same with directories where the required files should be. *)
Definition directories : filesystem :=
  fs_of [ (["srv"; "app"], Dir);
          (["srv"; "app"; "pages"], Dir);
          (["srv"; "app"; "pages"; "index.html"], Dir);
          (["srv"; "app"; "pages"; "dashboard.html"], Dir);
          (["srv"; "app"; "js"], Dir);
          (["srv"; "app"; "js"; "data-manager.js"], Dir);
          (["srv"; "app"; "data"], Dir);
          (["srv"; "app"; "data"; "locations.json"], Dir) ].

Definition env (b : open_result) (s : run_result) : environment :=
  mkEnv "/srv/app/app.py" b s.

End Sample.

(** * Properties *)

(** ** Strings and components *)

Lemma string_app_assoc (a b c : string) :
  ((a ++ b) ++ c)%string = (a ++ (b ++ c))%string.
Proof. induction a as [|x a IH]; simpl; [reflexivity|now rewrite IH]. Qed.

Lemma split_not_nil (s : string) : Str.split s <> [].
Proof.
  destruct s as [|c r]; simpl; [discriminate|].
  destruct (Ascii.eqb c Str.slash); [discriminate|].
  destruct (Str.split r); discriminate.
Qed.

Lemma split_app_slash (a b : string) :
  Str.split (a ++ String Str.slash b) = Str.split a ++ Str.split b.
Proof.
  induction a as [|c a IH]; simpl.
  - reflexivity.
  - destruct (Ascii.eqb c Str.slash).
    + now rewrite IH.
    + rewrite IH. destruct (Str.split a) as [|h t] eqn:E.
      * now destruct (split_not_nil a).
      * reflexivity.
Qed.

Lemma split_slash_free (s : string) : Forall (fun c => slash_free c = true) (Str.split s).
Proof.
  induction s as [|c r IH]; simpl.
  - constructor; [reflexivity|constructor].
  - destruct (Ascii.eqb c Str.slash) eqn:E.
    + constructor; [reflexivity|exact IH].
    + destruct (Str.split r) as [|h t].
      * constructor; [|constructor]. unfold slash_free; cbn [Str.contains].
        rewrite Ascii.eqb_sym, E. reflexivity.
      * inversion IH as [|? ? Hh Ht]; subst. constructor; [|exact Ht].
        unfold slash_free in *; cbn [Str.contains]. rewrite Ascii.eqb_sym, E. exact Hh.
Qed.

Lemma split_one (c : string) : slash_free c = true -> Str.split c = [c].
Proof.
  unfold slash_free. induction c as [|a c IH]; cbn [Str.contains Str.split]; intro H.
  - reflexivity.
  - rewrite Ascii.eqb_sym in H.
    destruct (Ascii.eqb a Str.slash); cbn [orb negb] in H; [discriminate|].
    now rewrite (IH H).
Qed.

Lemma split_join (names : list string) :
  names <> [] -> Forall (fun c => slash_free c = true) names ->
  Str.split (Str.join names) = names.
Proof.
  induction names as [|c r IH]; intros Hne Hall; [congruence|].
  inversion Hall as [|? ? Hc Hr]; subst.
  destruct r as [|d r'].
  - simpl. now apply split_one.
  - change (Str.join (c :: d :: r')) with (c ++ String Str.slash (Str.join (d :: r')))%string.
    rewrite split_app_slash, (split_one c Hc), IH; [reflexivity|discriminate|exact Hr].
Qed.

Lemma startswith_slash_split (s : string) :
  Str.startswith "/" s = true -> exists r, s = String Str.slash r.
Proof.
  destruct s as [|c r]; simpl; [discriminate|].
  rewrite andb_true_r. intro H. apply Ascii.eqb_eq in H. subst. now exists r.
Qed.

Lemma endswith_slash_split (s : string) :
  Str.endswith_slash s = true -> exists r, s = (r ++ "/")%string.
Proof.
  induction s as [|c r IH]; simpl; [discriminate|].
  destruct r as [|d r'].
  - intro H. apply Ascii.eqb_eq in H. subst. now exists "".
  - intro H. destruct (IH H) as [q Hq]. exists (String c q). simpl. now rewrite <- Hq.
Qed.

(** ** Walking paths *)

Lemma walk_app (cur : list string) (l1 l2 : list string) :
  os.walk cur (l1 ++ l2) = os.walk (os.walk cur l1) l2.
Proof. unfold os.walk. apply fold_left_app. Qed.

Lemma walk_plain (cur names : list string) :
  Forall (fun c => plain c = true) names -> os.walk cur names = cur ++ names.
Proof.
  revert cur. induction names as [|c r IH]; intros cur H.
  - simpl. now rewrite app_nil_r.
  - inversion H as [|? ? Hc Hr]; subst.
    unfold plain in Hc. apply andb_true_iff in Hc as [Hc Hp].
    apply andb_true_iff in Hc as [_ Hc].
    change (os.walk cur (c :: r)) with (os.walk (os.step cur c) r).
    unfold os.step. apply negb_true_iff in Hc, Hp. rewrite Hc, Hp.
    rewrite (IH _ Hr), <- app_assoc. reflexivity.
Qed.

Lemma canonical_join (a b : string) :
  Str.startswith "/" b = false ->
  os.canonical (posixpath.join a b) = os.walk (os.canonical a) (Str.split b).
Proof.
  intro Hb. unfold posixpath.join. rewrite Hb.
  destruct (String.eqb a "") eqn:Ea; simpl.
  - apply String.eqb_eq in Ea. subst. reflexivity.
  - destruct (Str.endswith_slash a) eqn:Es.
    + destruct (endswith_slash_split _ Es) as [r ->].
      unfold os.canonical. rewrite string_app_assoc.
      change ("/" ++ b)%string with (String Str.slash b).
      change "/" with (String Str.slash "").
      rewrite !split_app_slash, !walk_app. reflexivity.
    + unfold os.canonical. now rewrite split_app_slash, walk_app.
Qed.

(** ** The loop of normpath *)

Lemma plain_not_curdir (c : string) : plain c = true -> posixpath.curdir c = false.
Proof.
  unfold plain. intro H. apply andb_true_iff in H as [H _].
  apply andb_true_iff in H as [_ H]. now apply negb_true_iff in H.
Qed.

Lemma plain_not_pardir (c : string) : plain c = true -> posixpath.pardir c = false.
Proof.
  unfold plain. intro H. apply andb_true_iff in H as [_ H]. now apply negb_true_iff in H.
Qed.

Lemma plain_intro (c : string) :
  slash_free c = true -> posixpath.curdir c = false -> posixpath.pardir c = false ->
  plain c = true.
Proof. unfold plain. intros -> -> ->. reflexivity. Qed.

(** While the walk stays inside, the loop keeps exactly the names that the
    operating system would have descended through. *)
Lemma loop_inside (D : list string) (comps : list string) :
  forall stack,
    Forall (fun c => slash_free c = true) comps ->
    Forall (fun c => plain c = true) stack ->
    climb_free (length stack) comps = true ->
    Forall (fun c => plain c = true) (posixpath.normpath_loop 0 comps stack)
    /\ os.walk (D ++ rev stack) comps
       = D ++ rev (posixpath.normpath_loop 0 comps stack).
Proof.
  induction comps as [|comp rest IH]; intros stack Hsf Hst Hcf.
  - split; [exact Hst|reflexivity].
  - inversion Hsf as [|? ? Hc Hrest]; subst.
    change (os.walk (D ++ rev stack) (comp :: rest))
      with (os.walk (os.step (D ++ rev stack) comp) rest).
    cbn [posixpath.normpath_loop climb_free] in *. unfold os.step.
    destruct (posixpath.curdir comp) eqn:Ecur.
    + now apply IH.
    + destruct (posixpath.pardir comp) eqn:Epar; cbn [negb orb].
      * destruct stack as [|top stack']; [discriminate|].
        inversion Hst as [|? ? Htop Hst']; subst.
        cbn [Nat.eqb andb negb orb length] in *.
        rewrite (plain_not_pardir _ Htop).
        cbn [rev]. rewrite app_assoc, removelast_last.
        now apply IH.
      * replace ((D ++ rev stack) ++ [comp]) with (D ++ rev (comp :: stack))
          by (cbn [rev]; apply app_assoc).
        apply IH; [exact Hrest| |exact Hcf].
        constructor; [now apply plain_intro|exact Hst].
Qed.

(** A [..] at the bottom of the stack stays there. *)
Lemma loop_bottom (comps : list string) :
  forall s, exists s',
    posixpath.normpath_loop 0 comps (s ++ [".."]) = s' ++ [".."].
Proof.
  induction comps as [|comp rest IH]; intro s.
  - now exists s.
  - cbn [posixpath.normpath_loop].
    destruct (posixpath.curdir comp); [apply IH|].
    destruct (posixpath.pardir comp); cbn [negb orb].
    + destruct s as [|top s']; cbn [app Nat.eqb andb negb orb].
      * change (posixpath.pardir "..") with true. cbn iota. apply (IH [comp]).
      * destruct (posixpath.pardir top); [apply (IH (comp :: top :: s'))|apply IH].
    + apply (IH (comp :: s)).
Qed.

(** Once the walk steps above its start, the loop leaves a [..] first. *)
Lemma loop_climb (comps : list string) :
  forall stack,
    Forall (fun c => named c = true) stack ->
    climb_free (length stack) comps = false ->
    exists s', posixpath.normpath_loop 0 comps stack = s' ++ [".."].
Proof.
  induction comps as [|comp rest IH]; intros stack Hst Hcf; [discriminate|].
  cbn [posixpath.normpath_loop climb_free] in *.
  destruct (posixpath.curdir comp); [now apply IH|].
  destruct (posixpath.pardir comp) eqn:Epar; cbn [negb orb].
  - destruct stack as [|top stack']; cbn [Nat.eqb andb negb orb length] in *.
    + unfold posixpath.pardir in Epar. apply String.eqb_eq in Epar. subst comp.
      apply (loop_bottom rest []).
    + inversion Hst as [|? ? Htop Hst']; subst.
      unfold named in Htop. apply negb_true_iff in Htop. rewrite Htop.
      now apply IH.
  - apply IH; [|exact Hcf]. constructor; [|exact Hst].
    unfold named. now rewrite Epar.
Qed.

(** ** safe_join *)

Lemma startswith_app (p s : string) :
  Str.startswith p s = true -> exists r, s = (p ++ r)%string.
Proof.
  revert s. induction p as [|a p IH]; intros s H.
  - now exists s.
  - destruct s as [|b s]; [discriminate|]. cbn [Str.startswith] in H.
    apply andb_true_iff in H as [Hab H]. apply Ascii.eqb_eq in Hab. subst b.
    destruct (IH _ H) as [r ->]. now exists r.
Qed.

Lemma split_join_head (c : string) (r : list string) :
  slash_free c = true -> hd "" (Str.split (Str.join (c :: r))) = c.
Proof.
  intro Hc. destruct r as [|d r'].
  - cbn [Str.join]. now rewrite (split_one _ Hc).
  - change (Str.join (c :: d :: r'))
      with (c ++ String Str.slash (Str.join (d :: r')))%string.
    now rewrite split_app_slash, (split_one _ Hc).
Qed.

(** The tests of [safe_join] all fail on a string that begins with a name. *)
Lemma join_head_checks (c : string) (r : list string) :
  plain c = true ->
  String.eqb (Str.join (c :: r)) "" = false
  /\ Str.startswith "/" (Str.join (c :: r)) = false
  /\ String.eqb (Str.join (c :: r)) ".." = false
  /\ Str.startswith "../" (Str.join (c :: r)) = false.
Proof.
  intro Hp.
  assert (Hsf : slash_free c = true).
  { unfold plain in Hp. apply andb_true_iff in Hp as [Hp _].
    now apply andb_true_iff in Hp as [Hp _]. }
  pose proof (split_join_head c r Hsf) as Hhd.
  pose proof (plain_not_curdir _ Hp) as Hcur.
  pose proof (plain_not_pardir _ Hp) as Hpar.
  repeat split.
  - apply String.eqb_neq. intro E. rewrite E in Hhd. cbn in Hhd. subst c. discriminate.
  - destruct (Str.startswith "/" (Str.join (c :: r))) eqn:E; [|reflexivity].
    apply startswith_slash_split in E as [q E]. rewrite E in Hhd.
    cbn [Str.split] in Hhd. rewrite Ascii.eqb_refl in Hhd. cbn in Hhd.
    subst c. discriminate.
  - apply String.eqb_neq. intro E. rewrite E in Hhd. cbn in Hhd. subst c. discriminate.
  - destruct (Str.startswith "../" (Str.join (c :: r))) eqn:E; [|reflexivity].
    apply startswith_app in E as [q E]. rewrite E in Hhd.
    change ("../" ++ q)%string with (".." ++ String Str.slash q)%string in Hhd.
    rewrite split_app_slash in Hhd. cbn in Hhd. subst c. discriminate.
Qed.

Lemma join_pardir_first (r : list string) :
  String.eqb (Str.join (".." :: r)) "" = false
  /\ Str.startswith "/" (Str.join (".." :: r))
     || Str.startswith "/" (Str.join (".." :: r))
     || String.eqb (Str.join (".." :: r)) ".."
     || Str.startswith "../" (Str.join (".." :: r)) = true.
Proof. destruct r; split; reflexivity. Qed.

Lemma initial_slashes_relative (f : string) :
  Str.startswith "/" f = false -> posixpath.initial_slashes f = 0.
Proof. unfold posixpath.initial_slashes. now intros ->. Qed.

Lemma normpath_absolute (f : string) :
  Str.startswith "/" f = true -> Str.startswith "/" (posixpath.normpath f) = true.
Proof.
  intro H. unfold posixpath.normpath.
  destruct (String.eqb f "") eqn:E.
  - apply String.eqb_eq in E. subst. discriminate.
  - unfold posixpath.initial_slashes. rewrite H.
    destruct (Str.startswith "//" f && negb (Str.startswith "///" f)); reflexivity.
Qed.

(** A file name that is absolute or steps above the directory is refused. *)
Lemma safe_join_reject (directory f : string) :
  stays_inside f = false -> werkzeug.safe_join directory f = None.
Proof.
  unfold stays_inside, werkzeug.safe_join. intro H.
  destruct (String.eqb f "") eqn:Ef.
  { apply String.eqb_eq in Ef. subst. discriminate. }
  cbn [negb]. unfold posixpath.isabs.
  destruct (Str.startswith "/" f) eqn:Eabs.
  - now rewrite (normpath_absolute _ Eabs).
  - cbn [negb andb] in H.
    destruct (loop_climb (Str.split f) [] (Forall_nil _) H) as [s' Hs'].
    unfold posixpath.normpath.
    rewrite Ef, (initial_slashes_relative _ Eabs), Hs', rev_app_distr.
    cbn [rev app posixpath.seps String.append].
    destruct (join_pardir_first (rev s')) as [Hne Hj].
    now rewrite Hne, Hj.
Qed.

Lemma plain_slash_free (names : list string) :
  Forall (fun c => plain c = true) names ->
  Forall (fun c => slash_free c = true) names.
Proof.
  apply Forall_impl. intros c H. unfold plain in H.
  apply andb_true_iff in H as [H _]. now apply andb_true_iff in H as [H _].
Qed.

Lemma canonical_default_directory (directory : string) :
  os.canonical (if String.eqb directory "" then "." else directory)
  = os.canonical directory.
Proof.
  destruct (String.eqb directory "") eqn:E; [|reflexivity].
  apply String.eqb_eq in E. subst. reflexivity.
Qed.

(** A file name that stays inside is joined to the directory in its normal
    form, which denotes the entry the operating system reaches for the
    file name as it was given: the names [names] below the directory. *)
Lemma safe_join_inside (directory f : string) :
  stays_inside f = true ->
  exists p names,
    werkzeug.safe_join directory f = Some p
    /\ Forall (fun c => plain c = true) names
    /\ os.canonical p = os.canonical directory ++ names
    /\ os.canonical (posixpath.join directory f) = os.canonical directory ++ names.
Proof.
  unfold stays_inside. intro H. apply andb_true_iff in H as [Hrel Hcf].
  apply negb_true_iff in Hrel.
  destruct (loop_inside (os.canonical directory) (Str.split f) []
              (split_slash_free f) (Forall_nil _) Hcf) as [Hplain Hwalk].
  cbn [rev] in Hwalk. rewrite app_nil_r in Hwalk.
  set (names := rev (posixpath.normpath_loop 0 (Str.split f) [])) in *.
  assert (Hnames : Forall (fun c => plain c = true) names)
    by (apply Forall_rev; exact Hplain).
  assert (Hraw : os.canonical (posixpath.join directory f)
                 = os.canonical directory ++ names)
    by (now rewrite canonical_join).
  unfold werkzeug.safe_join, posixpath.isabs.
  set (d := if String.eqb directory "" then "." else directory).
  assert (Hd : os.canonical d = os.canonical directory)
    by apply canonical_default_directory.
  destruct (String.eqb f "") eqn:Ef; cbn [negb].
  - apply String.eqb_eq in Ef. subst f.
    exists (posixpath.join d ""), names. repeat split; try assumption.
    rewrite canonical_join, Hd by reflexivity. exact Hwalk.
  - unfold posixpath.normpath.
    rewrite Ef, (initial_slashes_relative _ Hrel).
    fold names. cbn [posixpath.seps String.append].
    destruct names as [|c r] eqn:En.
    + exists (posixpath.join d "."), []. repeat split; try assumption.
      rewrite canonical_join, Hd by reflexivity. cbn. now rewrite app_nil_r.
    + inversion Hnames as [|? ? Hc Hr]; subst.
      destruct (join_head_checks c r Hc) as (Hne & Habs & Hpd & Hpds).
      rewrite Hne, Habs, Hpd, Hpds. cbn [orb].
      exists (posixpath.join d (Str.join (c :: r))), (c :: r).
      repeat split; try assumption.
      rewrite canonical_join, Hd by exact Habs.
      rewrite split_join; [|discriminate|now apply plain_slash_free].
      now apply walk_plain.
Qed.

(** [safe_join] accepts exactly the file names that stay inside. *)
Lemma safe_join_accepts_iff (directory f : string) :
  (exists p, werkzeug.safe_join directory f = Some p) <-> stays_inside f = true.
Proof.
  split.
  - intros [p Hp]. destruct (stays_inside f) eqn:E; [reflexivity|].
    rewrite (safe_join_reject directory f E) in Hp. discriminate.
  - intro H. destruct (safe_join_inside directory f H) as (p & _ & Hp & _).
    now exists p.
Qed.


(** ** Paths of pathlib *)

Lemma string_app_nil_r (s : string) : (s ++ "")%string = s.
Proof. induction s as [|c s IH]; simpl; [reflexivity|now rewrite IH]. Qed.

Lemma split_name_slashed (r : pathlib.Path) :
  forall c, Str.split (c ++ pathlib.slashed r) = Str.split c ++ flat_map Str.split r.
Proof.
  induction r as [|d r IH]; intro c.
  - cbn [pathlib.slashed flat_map]. now rewrite string_app_nil_r, app_nil_r.
  - cbn [pathlib.slashed flat_map]. now rewrite split_app_slash, IH.
Qed.

Lemma canonical_fspath (p : pathlib.Path) :
  os.canonical (pathlib.fspath p) = os.walk [] (flat_map Str.split p).
Proof.
  destruct p as [|c r]; [reflexivity|].
  unfold os.canonical. cbn [pathlib.fspath pathlib.slashed Str.split].
  rewrite Ascii.eqb_refl, split_name_slashed. reflexivity.
Qed.

Lemma canonical_fspath_app (p q : pathlib.Path) :
  os.canonical (pathlib.fspath (p ++ q))
  = os.walk (os.canonical (pathlib.fspath p)) (flat_map Str.split q).
Proof. now rewrite !canonical_fspath, flat_map_app, walk_app. Qed.

(** A relative name taken from a directory is the path with one more part. *)
Lemma resolve_name (directory : pathlib.Path) (name : string) :
  Str.startswith "/" name = false ->
  resolve directory name = os.canonical (pathlib.fspath (directory ++ [name])).
Proof.
  intro H. unfold resolve.
  rewrite canonical_join, canonical_fspath_app by exact H.
  cbn [flat_map]. now rewrite app_nil_r.
Qed.

Lemma is_prefix_app (base names : list string) : is_prefix base (base ++ names) = true.
Proof.
  induction base as [|b base IH]; [reflexivity|].
  cbn [is_prefix app]. now rewrite String.eqb_refl, IH.
Qed.

(** ** send_from_directory *)

Section Send.

Variable fs : filesystem.
Variable directory : pathlib.Path.

(** The response is one of two: the bytes of a regular file, or [NotFound]. *)
Lemma send_cases (f : string) :
  werkzeug.send_from_directory fs directory f = werkzeug.NotFound
  \/ exists p b,
       werkzeug.safe_join (pathlib.fspath directory) f = Some p
       /\ os.stat fs p = Some (File b)
       /\ werkzeug.send_from_directory fs directory f = mkResponse 200 (Content b).
Proof.
  unfold werkzeug.send_from_directory, werkzeug.send_file, os.isfile.
  destruct (werkzeug.safe_join (pathlib.fspath directory) f) as [p|]; [|now left].
  destruct (os.stat fs p) as [[b|]|] eqn:E; cbn [negb]; try now left.
  right. now exists p, b.
Qed.

Lemma send_refused (f : string) :
  stays_inside f = false ->
  werkzeug.send_from_directory fs directory f = werkzeug.NotFound.
Proof.
  intro H. unfold werkzeug.send_from_directory.
  now rewrite (safe_join_reject _ _ H).
Qed.

(** For a file name that stays inside, the answer is decided by the entry
    that the file name resolves to. *)
Lemma send_inside (f : string) :
  stays_inside f = true ->
  werkzeug.send_from_directory fs directory f
  = match fs (resolve directory f) with
    | Some (File b) => mkResponse 200 (Content b)
    | _ => werkzeug.NotFound
    end.
Proof.
  intro H.
  destruct (safe_join_inside (pathlib.fspath directory) f H)
    as (p & names & Hp & _ & Hcp & Hraw).
  unfold werkzeug.send_from_directory, werkzeug.send_file, os.isfile, os.stat, resolve.
  rewrite Hp, Hcp, Hraw.
  now destruct (fs _) as [[b|]|].
Qed.

Lemma inside_resolve (f : string) :
  stays_inside f = true -> inside directory (resolve directory f) = true.
Proof.
  intro H.
  destruct (safe_join_inside (pathlib.fspath directory) f H)
    as (p & names & _ & _ & _ & Hraw).
  unfold inside, resolve. rewrite Hraw. apply is_prefix_app.
Qed.

Lemma send_escaping (f : string) :
  escapes directory f = true ->
  werkzeug.send_from_directory fs directory f = werkzeug.NotFound.
Proof.
  unfold escapes. intro H. apply negb_true_iff in H.
  destruct (stays_inside f) eqn:E.
  - now rewrite (inside_resolve f E) in H.
  - now apply send_refused.
Qed.

Lemma send_content_inside (f : string) (b : bytes) :
  werkzeug.send_from_directory fs directory f = mkResponse 200 (Content b) ->
  inside directory (resolve directory f) = true
  /\ fs (resolve directory f) = Some (File b).
Proof.
  intro H. destruct (stays_inside f) eqn:E.
  - split; [now apply inside_resolve|].
    rewrite (send_inside f E) in H.
    destruct (fs (resolve directory f)) as [[c|]|]; try discriminate.
    now inversion H.
  - rewrite (send_refused f E) in H. discriminate.
Qed.

Lemma send_no_file (f : string) :
  os.isfile fs (posixpath.join (pathlib.fspath directory) f) = false ->
  werkzeug.send_from_directory fs directory f = werkzeug.NotFound.
Proof.
  intro H. destruct (stays_inside f) eqn:E; [|now apply send_refused].
  rewrite (send_inside f E).
  unfold os.isfile, os.stat in H. fold (resolve directory f) in H.
  now destruct (fs (resolve directory f)) as [[c|]|].
Qed.

Lemma send_status (f : string) :
  status (werkzeug.send_from_directory fs directory f) = 200%Z
  \/ status (werkzeug.send_from_directory fs directory f) = 404%Z.
Proof.
  destruct (send_cases f) as [-> | (p & b & _ & _ & ->)]; [now right|now left].
Qed.

End Send.

(** ** The URL map *)


(** The converter of the rules takes every sub-path that has no line feed
    after its first character. *)
Lemma sub_path_converted (X : string) :
  sub_path X = true -> interior_line_feed X = false ->
  werkzeug.path_converter X = true.
Proof.
  unfold sub_path. intros H Hnl.
  destruct X as [|c r]; [discriminate|].
  cbn [werkzeug.path_converter interior_line_feed Str.split] in *.
  rewrite Hnl.
  destruct (Ascii.eqb c Str.slash); [discriminate|reflexivity].
Qed.

Lemma url_map_dashboard_with_location (location : string) :
  werkzeug.path_converter location = true ->
  url_map ("/dashboard/" ++ location) = Some (ep_dashboard_with_location location).
Proof.
  intro H. unfold url_map.
  change (werkzeug.path_part ("/dashboard/" ++ location))
    with ("/dashboard/" ++ location)%string.
  unfold match_path, match_path_rule.
  change (Str.strip_prefix "/dashboard/" ("/dashboard/" ++ location))
    with (Some location).
  cbv beta iota. rewrite H. reflexivity.
Qed.

Lemma url_map_js_files (filename : string) :
  werkzeug.path_converter filename = true ->
  url_map ("/js/" ++ filename) = Some (ep_js_files filename).
Proof.
  intro H. unfold url_map.
  change (werkzeug.path_part ("/js/" ++ filename)) with ("/js/" ++ filename)%string.
  unfold match_path, match_path_rule.
  change (Str.strip_prefix "/js/" ("/js/" ++ filename)) with (Some filename).
  cbv beta iota. rewrite H. reflexivity.
Qed.

Lemma url_map_data_files (filename : string) :
  werkzeug.path_converter filename = true ->
  url_map ("/data/" ++ filename) = Some (ep_data_files filename).
Proof.
  intro H. unfold url_map.
  change (werkzeug.path_part ("/data/" ++ filename)) with ("/data/" ++ filename)%string.
  unfold match_path, match_path_rule.
  change (Str.strip_prefix "/data/" ("/data/" ++ filename)) with (Some filename).
  cbv beta iota. rewrite H. reflexivity.
Qed.

Lemma route_matched (path_info : string) (e : endpoint) :
  url_map path_info = Some e -> route path_info = Matched e.
Proof. unfold route. now intros ->. Qed.

Section Routes.

Variable fs : filesystem.
Variable project_root : pathlib.Path.

Lemma get_index : get fs project_root "/" = Some (index fs project_root).
Proof. reflexivity. Qed.

Lemma get_dashboard : get fs project_root "/dashboard" = Some (dashboard fs project_root).
Proof. reflexivity. Qed.

Lemma get_dashboard_with_location (location : string) :
  werkzeug.path_converter location = true ->
  get fs project_root ("/dashboard/" ++ location)
  = Some (dashboard_with_location fs project_root location).
Proof. intro H. unfold get. now rewrite (url_map_dashboard_with_location _ H). Qed.

Lemma get_js_files (filename : string) :
  werkzeug.path_converter filename = true ->
  get fs project_root ("/js/" ++ filename) = Some (js_files fs project_root filename).
Proof. intro H. unfold get. now rewrite (url_map_js_files _ H). Qed.

Lemma get_data_files (filename : string) :
  werkzeug.path_converter filename = true ->
  get fs project_root ("/data/" ++ filename)
  = Some (data_files fs project_root filename).
Proof. intro H. unfold get. now rewrite (url_map_data_files _ H). Qed.

(** When the URL map calls a view, the answer of the application is the
    answer of that view. *)
Lemma dispatch_view (path_info : string) (r : response) :
  get fs project_root path_info = Some r ->
  full_dispatch_request fs project_root path_info = r.
Proof.
  unfold get, full_dispatch_request, route.
  destruct (url_map path_info) as [e|]; [|discriminate].
  cbn [option_map]. now intros [= ->].
Qed.

End Routes.

(** ** The static router *)

(** C1, as the specification states it, does not hold: a file name may pass
    through [..] and still resolve to an existing file of the [js]
    directory, and the request for it is answered with [NotFound].  Here
    [GET /js/../js/data-manager.js] on the sample installation. *)
Lemma C1_resolved_file_not_served :
  ~ (forall (fs : filesystem) (project_root : pathlib.Path)
            (filename : string) (b : bytes),
        werkzeug.path_converter filename = true ->
        fs (resolve (project_root // "js") filename) = Some (File b) ->
        get fs project_root ("/js/" ++ filename)
        = Some (mkResponse 200 (Content b))).
Proof.
  intro H.
  specialize (H Sample.installed Sample.root "../js/data-manager.js" Sample.js
                eq_refl eq_refl).
  vm_compute in H. discriminate H.
Qed.

(** C1 (amended): each of the five routes serves the file of the route
    table, resolved from the project root, with status 200 and the bytes of
    the file when that file exists: [/] serves [pages/index.html],
    [/dashboard] and [/dashboard/<location>] serve [pages/dashboard.html],
    [/js/<filename>] and [/data/<filename>] serve the file that [filename]
    names in the [js] and [data] directories, for every [filename] that is
    relative and never steps above that directory on the way. *)
Theorem routes_serve_files (fs : filesystem) (project_root : pathlib.Path) :
  (forall b,
      os.stat fs (pathlib.fspath (project_root // "pages/index.html")) = Some (File b) ->
      get fs project_root "/" = Some (mkResponse 200 (Content b)))
  /\ (forall b,
      os.stat fs (pathlib.fspath (project_root // "pages/dashboard.html")) = Some (File b) ->
      get fs project_root "/dashboard" = Some (mkResponse 200 (Content b)))
  /\ (forall location b,
      werkzeug.path_converter location = true ->
      os.stat fs (pathlib.fspath (project_root // "pages/dashboard.html")) = Some (File b) ->
      get fs project_root ("/dashboard/" ++ location)
      = Some (mkResponse 200 (Content b)))
  /\ (forall filename b,
      werkzeug.path_converter filename = true ->
      stays_inside filename = true ->
      fs (resolve (project_root // "js") filename) = Some (File b) ->
      get fs project_root ("/js/" ++ filename) = Some (mkResponse 200 (Content b)))
  /\ (forall filename b,
      werkzeug.path_converter filename = true ->
      stays_inside filename = true ->
      fs (resolve (project_root // "data") filename) = Some (File b) ->
      get fs project_root ("/data/" ++ filename) = Some (mkResponse 200 (Content b))).
Proof.
  assert (Hpage : forall name b,
             Str.startswith "/" name = false -> stays_inside name = true ->
             os.stat fs (pathlib.fspath ((project_root ++ ["pages"]) ++ [name]))
             = Some (File b) ->
             werkzeug.send_from_directory fs (project_root // "pages") name
             = mkResponse 200 (Content b)).
  { intros name b Hrel Hin Hf. rewrite (send_inside _ _ _ Hin).
    change (project_root // "pages") with (project_root ++ ["pages"]).
    rewrite (resolve_name _ _ Hrel). unfold os.stat in Hf. now rewrite Hf. }
  repeat split.
  - intros b Hf. rewrite get_index. unfold index. f_equal.
    apply Hpage; [reflexivity|reflexivity|].
    rewrite <- app_assoc. exact Hf.
  - intros b Hf. rewrite get_dashboard. unfold dashboard. f_equal.
    apply Hpage; [reflexivity|reflexivity|].
    rewrite <- app_assoc. exact Hf.
  - intros location b Hc Hf. rewrite (get_dashboard_with_location _ _ _ Hc).
    unfold dashboard_with_location. f_equal.
    apply Hpage; [reflexivity|reflexivity|].
    rewrite <- app_assoc. exact Hf.
  - intros filename b Hc Hin Hf. rewrite (get_js_files _ _ _ Hc).
    unfold js_files. now rewrite (send_inside _ _ _ Hin), Hf.
  - intros filename b Hc Hin Hf. rewrite (get_data_files _ _ _ Hc).
    unfold data_files. now rewrite (send_inside _ _ _ Hin), Hf.
Qed.

Lemma routes_serve_files_witness :
  get Sample.installed Sample.root "/" = Some (mkResponse 200 (Content Sample.html))
  /\ get Sample.installed Sample.root "/dashboard"
     = Some (mkResponse 200 (Content Sample.board))
  /\ get Sample.installed Sample.root "/dashboard/library/floor-2"
     = Some (mkResponse 200 (Content Sample.board))
  /\ get Sample.installed Sample.root "/js/vendor/../data-manager.js"
     = Some (mkResponse 200 (Content Sample.js))
  /\ get Sample.installed Sample.root "/data/locations.json"
     = Some (mkResponse 200 (Content Sample.json)).
Proof.
  destruct (routes_serve_files Sample.installed Sample.root)
    as (H1 & H2 & H3 & H4 & H5).
  split; [apply H1; reflexivity|].
  split; [apply H2; reflexivity|].
  split; [apply (H3 "library/floor-2"); reflexivity|].
  split; [apply (H4 "vendor/../data-manager.js"); reflexivity|].
  apply (H5 "locations.json"); reflexivity.
Defined.

(** C2, as the specification states it, does not hold: a segment may carry
    a line feed, which the path converter of the rule does not take after
    the first character.  [GET /dashboard/a%0Ab] matches no rule and is
    answered with [NotFound], while [GET /dashboard] is answered with the
    page. *)
Lemma C2_line_feed_not_accepted :
  ~ (forall (fs : filesystem) (project_root : pathlib.Path) (X : string),
        sub_path X = true ->
        full_dispatch_request fs project_root ("/dashboard/" ++ X)
        = full_dispatch_request fs project_root "/dashboard").
Proof.
  intro H.
  specialize (H Sample.installed Sample.root
                (String "a" (String Str.newline "b")) eq_refl).
  vm_compute in H. discriminate H.
Qed.

(** C2 (amended): for every sub-path [X] (one non-empty segment or several)
    without a line feed after its first character, the request
    [GET /dashboard/X] is taken by the rule of [dashboard_with_location]
    with [X] as the location, and its response is the response to
    [GET /dashboard], byte for byte: the page [pages/dashboard.html] with
    status 200 when that is a regular file, [NotFound] otherwise.  The
    location has no effect on what is served. *)
Theorem dashboard_location_ignored
    (fs : filesystem) (project_root : pathlib.Path) (X : string) :
  sub_path X = true ->
  interior_line_feed X = false ->
  route ("/dashboard/" ++ X) = Matched (ep_dashboard_with_location X)
  /\ full_dispatch_request fs project_root ("/dashboard/" ++ X)
     = full_dispatch_request fs project_root "/dashboard"
  /\ full_dispatch_request fs project_root "/dashboard"
     = answer_of (os.stat fs (pathlib.fspath (project_root // "pages/dashboard.html"))).
Proof.
  intros H Hnl.
  pose proof (sub_path_converted _ H Hnl) as Hc.
  pose proof (route_matched _ _ (url_map_dashboard_with_location _ Hc)) as Hroute.
  split; [exact Hroute|]. split.
  - unfold full_dispatch_request at 1. now rewrite Hroute.
  - change (full_dispatch_request fs project_root "/dashboard")
      with (dashboard fs project_root).
    unfold dashboard. rewrite send_inside by reflexivity.
    change (project_root // "pages") with (project_root ++ ["pages"]).
    rewrite resolve_name by reflexivity. now rewrite <- app_assoc.
Qed.

Lemma dashboard_location_ignored_witness :
  sub_path "library/floor-2" = true
  /\ interior_line_feed "library/floor-2" = false
  /\ full_dispatch_request Sample.installed Sample.root "/dashboard/library/floor-2"
     = mkResponse 200 (Content Sample.board).
Proof.
  split; [reflexivity|]. split; [reflexivity|].
  destruct (dashboard_location_ignored Sample.installed Sample.root
              "library/floor-2" eq_refl eq_refl) as (_ & H1 & H2).
  change (full_dispatch_request Sample.installed Sample.root
            ("/dashboard/" ++ "library/floor-2")
          = mkResponse 200 (Content Sample.board)).
  rewrite H1, H2. reflexivity.
Defined.

(** C3: a request to [/js/<filename>] or [/data/<filename>] whose file name
    resolves outside the base directory is answered with [NotFound], status
    404 and no file content; and whatever content a request to these routes
    is answered with is that of a file inside the base directory. *)
Theorem traversal_rejected
    (fs : filesystem) (project_root : pathlib.Path) (filename : string) :
  werkzeug.path_converter filename = true ->
  (escapes (project_root // "js") filename = true ->
   get fs project_root ("/js/" ++ filename) = Some werkzeug.NotFound)
  /\ (escapes (project_root // "data") filename = true ->
      get fs project_root ("/data/" ++ filename) = Some werkzeug.NotFound)
  /\ (forall b,
      get fs project_root ("/js/" ++ filename) = Some (mkResponse 200 (Content b)) ->
      exists p, inside (project_root // "js") p = true /\ fs p = Some (File b))
  /\ (forall b,
      get fs project_root ("/data/" ++ filename) = Some (mkResponse 200 (Content b)) ->
      exists p, inside (project_root // "data") p = true /\ fs p = Some (File b)).
Proof.
  intro Hc.
  rewrite (get_js_files _ _ _ Hc), (get_data_files _ _ _ Hc).
  unfold js_files, data_files.
  repeat split.
  - intro H. now rewrite (send_escaping _ _ _ H).
  - intro H. now rewrite (send_escaping _ _ _ H).
  - intros b H. inversion H as [H'].
    destruct (send_content_inside _ _ _ _ H') as [Hi Hf]. eauto.
  - intros b H. inversion H as [H'].
    destruct (send_content_inside _ _ _ _ H') as [Hi Hf]. eauto.
Qed.

Lemma traversal_rejected_witness :
  escapes (Sample.root // "js") "../app.py" = true
  /\ fs_entry_is_file Sample.installed (resolve (Sample.root // "js") "../app.py") = true
  /\ get Sample.installed Sample.root "/js/../app.py" = Some werkzeug.NotFound.
Proof.
  split; [reflexivity|]. split; [reflexivity|].
  apply (traversal_rejected Sample.installed Sample.root "../app.py");
    reflexivity.
Defined.

Lemma view_status (fs : filesystem) (project_root : pathlib.Path) (e : endpoint) :
  status (view fs project_root e) = 200%Z \/ status (view fs project_root e) = 404%Z.
Proof. destruct e; apply send_status. Qed.

(** C6, as the specification states it, does not hold: the router has a
    third status.  [GET /js//data-manager.js] matches the rule of
    [js_files] only once its doubled slash is merged, and is answered with a
    permanent redirect, status 308. *)
Lemma C6_redirect_status :
  ~ (forall (fs : filesystem) (project_root : pathlib.Path) (path_info : string),
        status (full_dispatch_request fs project_root path_info) = 200%Z
        \/ status (full_dispatch_request fs project_root path_info) = 404%Z).
Proof.
  intro H.
  destruct (H Sample.installed Sample.root "/js//data-manager.js") as [E|E];
    vm_compute in E; discriminate E.
Qed.

(** C6 (amended): for an unconditional GET request, with every file
    readable, the status of the response is 200, 404 or 308, and no other;
    it is 308 exactly when no rule matches the path as it is and one does
    once its doubled slashes are merged; when a view is called it is 200
    (the file exists and is served) or 404 (it does not).  For
    [/js/<filename>] and [/data/<filename>] the response is 200 with the
    bytes when the file name stays inside the directory and names a regular
    file there, and [NotFound], status 404, in every other case. *)
Theorem router_statuses (fs : filesystem) (project_root : pathlib.Path) :
  (forall path_info,
      status (full_dispatch_request fs project_root path_info) = 200%Z
      \/ status (full_dispatch_request fs project_root path_info) = 404%Z
      \/ status (full_dispatch_request fs project_root path_info) = 308%Z)
  /\ (forall path_info,
      status (full_dispatch_request fs project_root path_info) = 308%Z
      <-> url_map path_info = None
          /\ match_path (werkzeug.merge_slashes (werkzeug.path_part path_info))
             <> None)
  /\ (forall path_info e,
      url_map path_info = Some e ->
      full_dispatch_request fs project_root path_info = view fs project_root e
      /\ (status (view fs project_root e) = 200%Z
          \/ status (view fs project_root e) = 404%Z))
  /\ (forall filename,
      werkzeug.path_converter filename = true ->
      full_dispatch_request fs project_root ("/js/" ++ filename)
      = if stays_inside filename
        then answer_of (fs (resolve (project_root // "js") filename))
        else werkzeug.NotFound)
  /\ (forall filename,
      werkzeug.path_converter filename = true ->
      full_dispatch_request fs project_root ("/data/" ++ filename)
      = if stays_inside filename
        then answer_of (fs (resolve (project_root // "data") filename))
        else werkzeug.NotFound).
Proof.
  split; [|split; [|split; [|split]]].
  - intro path_info. unfold full_dispatch_request.
    destruct (route path_info) as [e|q|].
    + destruct (view_status fs project_root e) as [H|H]; auto.
    + right. right. reflexivity.
    + right. left. reflexivity.
  - intro path_info. unfold full_dispatch_request, route.
    destruct (url_map path_info) as [e|].
    + split.
      * intro H. destruct (view_status fs project_root e) as [E|E];
          rewrite E in H; discriminate H.
      * intros [H _]. discriminate H.
    + cbv zeta.
      destruct (match_path (werkzeug.merge_slashes (werkzeug.path_part path_info)))
        as [e|].
      * split; [intros _; split; [reflexivity|discriminate]|reflexivity].
      * split; [discriminate|]. intros [_ H]. now destruct H.
  - intros path_info e H. split; [|apply view_status].
    unfold full_dispatch_request. now rewrite (route_matched _ _ H).
  - intros filename Hc. unfold full_dispatch_request.
    rewrite (route_matched _ _ (url_map_js_files _ Hc)). cbn [view]. unfold js_files.
    destruct (stays_inside filename) eqn:E.
    + now rewrite (send_inside _ _ _ E).
    + now apply send_refused.
  - intros filename Hc. unfold full_dispatch_request.
    rewrite (route_matched _ _ (url_map_data_files _ Hc)). cbn [view]. unfold data_files.
    destruct (stays_inside filename) eqn:E.
    + now rewrite (send_inside _ _ _ E).
    + now apply send_refused.
Qed.

Lemma router_statuses_witness :
  status (full_dispatch_request Sample.installed Sample.root "/js//data-manager.js")
  = 308%Z
  /\ full_dispatch_request Sample.installed Sample.root "/js/vendor/../data-manager.js"
     = mkResponse 200 (Content Sample.js)
  /\ full_dispatch_request Sample.installed Sample.root "/js/missing.js"
     = werkzeug.NotFound
  /\ full_dispatch_request Sample.installed Sample.root "/data/../js/data-manager.js"
     = werkzeug.NotFound.
Proof.
  destruct (router_statuses Sample.installed Sample.root) as (_ & H2 & _ & H4 & H5).
  split; [apply H2; split; [reflexivity|discriminate]|].
  split; [apply (H4 "vendor/../data-manager.js"); reflexivity|].
  split; [apply (H4 "missing.js"); reflexivity|].
  apply (H5 "../js/data-manager.js"); reflexivity.
Defined.

(** ** The loops of main *)

Lemma world_eta (w : world) : mkWorld (w_fs w) (w_trace w ++ []) = w.
Proof. destruct w. cbn. now rewrite app_nil_r. Qed.

Lemma for_print {A} (g : A -> string) (l : list A) :
  forall w,
    for_ l (fun x _ => print (g x)) tt w
    = (mkWorld (w_fs w) (w_trace w ++ map (fun x => Print (g x)) l), inl tt).
Proof.
  induction l as [|x l IH]; intro w.
  - cbn [for_ map]. unfold ret. now rewrite world_eta.
  - cbn [for_ map]. unfold bind at 1. unfold print at 1, emit.
    rewrite IH. cbn [w_fs w_trace]. now rewrite <- app_assoc.
Qed.

Lemma validation_loop (project_root : pathlib.Path) (files : list string) :
  forall missing w,
    for_ files
      (fun file_path missing_files =>
         let full_path := project_root // file_path in
         found <- path_exists full_path ;;
         if negb found then ret (missing_files ++ [file_path])
         else ret missing_files)
      missing w
    = (mkWorld (w_fs w)
         (w_trace w
          ++ map (fun f => Stat (pathlib.fspath (project_root // f))) files),
       inl (missing
            ++ filter (fun f => negb (pathlib.exists_ (w_fs w) (project_root // f)))
                 files)).
Proof.
  induction files as [|f files IH]; intros missing w.
  - cbn [for_ map filter]. unfold ret. now rewrite world_eta, app_nil_r.
  - cbn [for_ map filter]. unfold bind at 1. unfold bind at 1, path_exists.
    destruct (pathlib.exists_ (w_fs w) (project_root // f)); cbn [negb].
    + unfold ret at 1. rewrite IH. cbn [w_fs w_trace]. now rewrite <- app_assoc.
    + unfold ret at 1. rewrite IH. cbn [w_fs w_trace].
      now rewrite <- !app_assoc.
Qed.

(** ** The two courses of main *)

Lemma main_missing (env : environment) (fs : filesystem) (m : string) (ms : list string) :
  missing_of fs (project_root_of env) = m :: ms ->
  main env (start fs)
  = (mkWorld fs
       (checks (project_root_of env)
        ++ Print "Error: Missing required files!"
           :: map (fun f => Print ("  - " ++ f)) (m :: ms)),
     inr (SystemExit 1)).
Proof.
  intro H. unfold main. unfold bind at 1. rewrite validation_loop.
  cbn [w_fs w_trace start app]. fold (missing_of fs (project_root_of env)).
  rewrite H. unfold bind at 1. unfold bind at 1. unfold print at 1, emit.
  unfold bind at 1. rewrite for_print. cbn [w_fs w_trace].
  unfold sys_exit, raise. fold (checks (project_root_of env)).
  now rewrite <- app_assoc.
Qed.

Lemma main_valid (env : environment) (fs : filesystem) :
  missing_of fs (project_root_of env) = [] ->
  main env (start fs)
  = (mkWorld fs (startup (project_root_of env) ++ ending (serving env)),
     outcome (serving env)).
Proof.
  intro H. unfold main. unfold bind at 1. rewrite validation_loop.
  cbn [w_fs w_trace start app]. fold (missing_of fs (project_root_of env)).
  rewrite H. unfold bind at 1. unfold ret at 1.
  unfold bind at 1. rewrite for_print. cbn [w_fs w_trace].
  fold (checks (project_root_of env)).
  unfold try_except, bind, emit, print, app_run, startup.
  cbn [w_fs w_trace].
  destruct (serving env); cbn [ending outcome w_fs w_trace];
    unfold ret, raise, sys_exit, emit, raise; cbn [w_fs w_trace];
    rewrite <- ?app_assoc; reflexivity.
Qed.

Lemma filter_nil_iff {A} (f : A -> bool) (l : list A) :
  filter f l = [] <-> forall x, In x l -> f x = false.
Proof.
  induction l as [|a l IH]; cbn [filter].
  - split; [intros _ x []|reflexivity].
  - destruct (f a) eqn:E.
    + split; [discriminate|]. intro H. rewrite (H a (or_introl eq_refl)) in E.
      discriminate.
    + rewrite IH. split.
      * intros H x [<-|Hx]; [exact E|now apply H].
      * intros H x Hx. apply H. now right.
Qed.

(** Validation passes exactly when every required path exists. *)
Lemma missing_nil_iff (fs : filesystem) (project_root : pathlib.Path) :
  missing_of fs project_root = []
  <-> forall f, In f required_files -> pathlib.exists_ fs (project_root // f) = true.
Proof.
  unfold missing_of. rewrite filter_nil_iff. split; intros H f Hf.
  - specialize (H f Hf). now apply negb_false_iff in H.
  - now rewrite (H f Hf).
Qed.

Lemma existsb_prints {A} (p : event -> bool) (g : A -> string) (l : list A) :
  (forall s, p (Print s) = false) ->
  existsb p (map (fun x => Print (g x)) l) = false.
Proof.
  intro H. induction l as [|x l IH]; [reflexivity|].
  cbn [map existsb]. now rewrite H, IH.
Qed.

Lemma checks_only_stat (p : event -> bool) (project_root : pathlib.Path) :
  (forall s, p (Stat s) = false) -> existsb p (checks project_root) = false.
Proof.
  intro H. unfold checks. induction required_files as [|x l IH]; [reflexivity|].
  cbn [map existsb]. now rewrite H, IH.
Qed.

Lemma run_main_missing (env : environment) (fs : filesystem) (m : string) (ms : list string) :
  missing_of fs (project_root_of env) = m :: ms ->
  run_main env fs
  = (mkWorld fs
       (checks (project_root_of env)
        ++ Print "Error: Missing required files!"
           :: map (fun f => Print ("  - " ++ f)) (m :: ms)),
     1%Z).
Proof. intro H. unfold run_main. now rewrite (main_missing _ _ _ _ H). Qed.

Lemma run_main_valid (env : environment) (fs : filesystem) :
  missing_of fs (project_root_of env) = [] ->
  run_main env fs
  = (mkWorld fs (startup (project_root_of env) ++ ending (serving env)),
     exit_status (outcome (serving env))).
Proof. intro H. unfold run_main. now rewrite (main_valid _ _ H). Qed.

Lemma startup_runs (project_root : pathlib.Path) (tail : list event) :
  existsb is_app_run (startup project_root ++ tail) = true.
Proof.
  unfold startup. rewrite !existsb_app.
  cbn [existsb is_app_run]. now rewrite !orb_true_r.
Qed.

(** ** The start-up sequencer *)

(** C4: when a required file is absent at start-up, every missing path is
    printed, the exit status is 1, and neither the browser thread nor the
    server is started: the port is never bound. *)
Theorem missing_files_abort (env : environment) (fs : filesystem) :
  (exists f, In f required_files
             /\ pathlib.exists_ fs (project_root_of env // f) = false) ->
  (forall f, In f required_files ->
             pathlib.exists_ fs (project_root_of env // f) = false ->
             In (Print ("  - " ++ f)) (w_trace (fst (run_main env fs))))
  /\ snd (run_main env fs) = 1%Z
  /\ existsb is_app_run (w_trace (fst (run_main env fs))) = false
  /\ existsb is_thread_start (w_trace (fst (run_main env fs))) = false.
Proof.
  intros (f0 & Hin0 & Hf0).
  destruct (missing_of fs (project_root_of env)) as [|m ms] eqn:E.
  { rewrite missing_nil_iff in E. rewrite (E f0 Hin0) in Hf0. discriminate. }
  rewrite (run_main_missing _ _ _ _ E). cbn [fst snd w_trace].
  repeat split.
  - intros f Hin Hf. apply in_or_app. right. right.
    rewrite <- E. apply (in_map (fun f => Print ("  - " ++ f))).
    unfold missing_of. apply filter_In. split; [exact Hin|now rewrite Hf].
  - rewrite existsb_app, checks_only_stat by reflexivity.
    cbn [existsb is_app_run orb].
    change (existsb is_app_run (map (fun f => Print ("  - " ++ f)) (m :: ms)) = false).
    now apply existsb_prints.
  - rewrite existsb_app, checks_only_stat by reflexivity.
    cbn [existsb is_thread_start orb].
    change (existsb is_thread_start (map (fun f => Print ("  - " ++ f)) (m :: ms)) = false).
    now apply existsb_prints.
Qed.

Lemma missing_files_abort_witness :
  In (Print "  - pages/dashboard.html")
     (w_trace (fst (run_main (Sample.env (OpenReturns true) RunReturns)
                             Sample.incomplete)))
  /\ snd (run_main (Sample.env (OpenReturns true) RunReturns) Sample.incomplete) = 1%Z
  /\ existsb is_app_run
       (w_trace (fst (run_main (Sample.env (OpenReturns true) RunReturns)
                               Sample.incomplete))) = false.
Proof.
  assert (H : exists f, In f required_files
                /\ pathlib.exists_ Sample.incomplete
                     (project_root_of (Sample.env (OpenReturns true) RunReturns) // f)
                   = false).
  { exists "pages/dashboard.html". split; [right; left; reflexivity|reflexivity]. }
  destruct (missing_files_abort (Sample.env (OpenReturns true) RunReturns)
              Sample.incomplete H) as (H1 & H2 & H3 & _).
  split; [|split; assumption].
  apply (H1 "pages/dashboard.html"); [right; left; reflexivity|reflexivity].
Defined.

Lemma startswith_append (pre rest : string) :
  Str.startswith pre (pre ++ rest) = true.
Proof.
  induction pre as [|c pre IH]; [reflexivity|].
  cbn [Str.startswith String.append]. now rewrite Ascii.eqb_refl, IH.
Qed.

(** What a validated start-up prints before serving: the status text and
    the line that announces the server. *)
Lemma startup_prints (project_root : pathlib.Path) (line : string) :
  In (Print line) (startup project_root) ->
  In line (banner ++ ["Starting server on http://localhost:5000..."]).
Proof.
  unfold startup. intro H.
  apply in_app_or in H as [H|H].
  - unfold checks in H. apply in_map_iff in H as (f & Hf & _). discriminate Hf.
  - apply in_app_or in H as [H|H].
    + apply in_map_iff in H as (l & Hl & Hin). inversion Hl; subst l.
      apply in_or_app. now left.
    + destruct H as [H|[H|[H|[]]]]; try discriminate H.
      inversion H; subst line. apply in_or_app. right. now left.
Qed.

(** C5 fails on the code where the server itself deals with the event.
    An interrupt of the operator while the server serves is caught inside
    [app.run], which returns: [main] ends with status 0 and the farewell of
    its handler is not printed.  A port that is taken makes [app.run] raise
    [SystemExit(1)], which the handler for [Exception] does not catch: the
    status is 1 and the error line of [main] is not printed. *)
Theorem serving_handlers_bypassed (env : environment) (fs : filesystem) :
  (serving env = RunInterruptedServing ->
   missing_of fs (project_root_of env) = [] ->
   run_main env fs = (mkWorld fs (startup (project_root_of env)), 0%Z))
  /\ (serving env = RunAddressInUse ->
      missing_of fs (project_root_of env) = [] ->
      run_main env fs = (mkWorld fs (startup (project_root_of env)), 1%Z))
  /\ ~ In (Print (String Str.newline "👋 Server stopped by user"))
          (startup (project_root_of env))
  /\ (forall message,
      ~ In (Print ("❌ Error starting server: " ++ message))
           (startup (project_root_of env))).
Proof.
  split; [|split; [|split]].
  - intros Hs E. rewrite (run_main_valid _ _ E), Hs.
    cbn [ending outcome exit_status]. now rewrite app_nil_r.
  - intros Hs E. rewrite (run_main_valid _ _ E), Hs.
    cbn [ending outcome exit_status]. now rewrite app_nil_r.
  - intro H. apply startup_prints in H.
    assert (Hb : forallb (fun l => negb (Str.startswith (String Str.newline "") l))
                   (banner ++ ["Starting server on http://localhost:5000..."]) = true)
      by reflexivity.
    rewrite forallb_forall in Hb. specialize (Hb _ H). discriminate Hb.
  - intros message H. apply startup_prints in H.
    assert (Hb : forallb (fun l => negb (Str.startswith "❌ Error starting server: " l))
                   (banner ++ ["Starting server on http://localhost:5000..."]) = true)
      by reflexivity.
    rewrite forallb_forall in Hb. specialize (Hb _ H).
    rewrite startswith_append in Hb. discriminate Hb.
Qed.

Lemma serving_handlers_bypassed_witness :
  run_main (Sample.env (OpenReturns true) RunInterruptedServing) Sample.installed
  = (mkWorld Sample.installed (startup Sample.root), 0%Z)
  /\ run_main (Sample.env (OpenReturns true) RunAddressInUse) Sample.installed
     = (mkWorld Sample.installed (startup Sample.root), 1%Z).
Proof.
  split.
  - destruct (serving_handlers_bypassed
                (Sample.env (OpenReturns true) RunInterruptedServing)
                Sample.installed) as (H & _).
    apply H; reflexivity.
  - destruct (serving_handlers_bypassed
                (Sample.env (OpenReturns true) RunAddressInUse)
                Sample.installed) as (_ & H & _).
    apply H; reflexivity.
Defined.

Lemma banner_lines_apart :
  forallb (fun line =>
             negb (Str.startswith "  - " line)
             && negb (String.eqb line "Error: Missing required files!"))
          banner = true.
Proof. reflexivity. Qed.

(** No line of the status text is among the lines of a failed validation. *)
Lemma banner_not_printed (project_root : pathlib.Path) (missing : list string)
    (line : string) :
  In line banner ->
  ~ In (Print line)
       (checks project_root
        ++ Print "Error: Missing required files!"
           :: map (fun f => Print ("  - " ++ f)) missing).
Proof.
  intros Hline Hin.
  pose proof banner_lines_apart as Hb. rewrite forallb_forall in Hb.
  specialize (Hb line Hline). apply andb_true_iff in Hb as [Hdash Herr].
  apply negb_true_iff in Hdash, Herr.
  apply in_app_or in Hin as [Hin|[Hin|Hin]].
  - unfold checks in Hin. apply in_map_iff in Hin as (f & Hf & _). discriminate.
  - inversion Hin; subst line. rewrite String.eqb_refl in Herr. discriminate.
  - apply in_map_iff in Hin as (f & Hf & _). inversion Hf; subst line.
    discriminate.
Qed.

(** C8: the project root is the directory of the entry script; the four
    required paths are checked under it, in order, before anything else;
    when all exist the status text is printed, then the browser thread is
    started, then the server is run on [localhost:5000], and nothing more
    happens until serving ends; when one is missing none of these happens. *)
Theorem startup_sequence (env : environment) (fs : filesystem) :
  let project_root := pathlib.parent (pathlib.of_string (script env)) in
  let trace := w_trace (fst (run_main env fs)) in
  (exists rest, trace = checks project_root ++ rest)
  /\ ((forall f, In f required_files ->
                 pathlib.exists_ fs (project_root // f) = true) ->
      trace
      = checks project_root
        ++ map Print banner
        ++ [ThreadStart target_open_browser true;
            Print "Starting server on http://localhost:5000...";
            AppRun "localhost" 5000 false]
        ++ ending (serving env))
  /\ (~ (forall f, In f required_files ->
                   pathlib.exists_ fs (project_root // f) = true) ->
      (forall line, In line banner -> ~ In (Print line) trace)
      /\ existsb is_thread_start trace = false
      /\ existsb is_app_run trace = false).
Proof.
  cbv zeta. fold (project_root_of env).
  destruct (missing_of fs (project_root_of env)) as [|m ms] eqn:E.
  - rewrite (run_main_valid _ _ E). cbn [fst w_trace]. unfold startup.
    rewrite <- !app_assoc. split; [eauto|]. split; [reflexivity|].
    intro H. destruct H. now apply missing_nil_iff.
  - rewrite (run_main_missing _ _ _ _ E). cbn [fst w_trace].
    split; [eauto|]. split.
    + intro H. apply missing_nil_iff in H. congruence.
    + intros _. split; [|split].
      * intros line Hline. now apply banner_not_printed.
      * rewrite existsb_app, checks_only_stat by reflexivity.
        cbn [existsb is_thread_start orb].
        change (existsb is_thread_start
                  (map (fun f => Print ("  - " ++ f)) (m :: ms)) = false).
        now apply existsb_prints.
      * rewrite existsb_app, checks_only_stat by reflexivity.
        cbn [existsb is_app_run orb].
        change (existsb is_app_run
                  (map (fun f => Print ("  - " ++ f)) (m :: ms)) = false).
        now apply existsb_prints.
Qed.

Lemma startup_sequence_witness :
  w_trace (fst (run_main (Sample.env (OpenReturns true) RunReturns) Sample.installed))
  = checks Sample.root
    ++ map Print banner
    ++ [ThreadStart target_open_browser true;
        Print "Starting server on http://localhost:5000...";
        AppRun "localhost" 5000 false]
  /\ existsb is_app_run
       (w_trace (fst (run_main (Sample.env (OpenReturns true) RunReturns)
                               Sample.incomplete))) = false.
Proof.
  split.
  - destruct (startup_sequence (Sample.env (OpenReturns true) RunReturns)
                Sample.installed) as (_ & H & _).
    cbv zeta in H. rewrite H; [reflexivity|].
    intros f [<-|[<-|[<-|[<-|[]]]]]; reflexivity.
  - destruct (startup_sequence (Sample.env (OpenReturns true) RunReturns)
                Sample.incomplete) as (_ & _ & H).
    apply H. intro Hall.
    specialize (Hall "pages/dashboard.html" (or_intror (or_introl eq_refl))).
    discriminate Hall.
Defined.

(** C10: the check of the required files asks only whether an entry exists
    at each path: the server is started exactly when each of the four paths
    has an entry of any kind, directories included, and the file system is
    left as it was. *)
Theorem validation_tests_existence_only (env : environment) (fs : filesystem) :
  (existsb is_app_run (w_trace (fst (run_main env fs))) = true
   <-> forall f, In f required_files ->
                 os.stat fs (pathlib.fspath (project_root_of env // f)) <> None)
  /\ ((forall f, In f required_files ->
                 os.stat fs (pathlib.fspath (project_root_of env // f)) = Some Dir) ->
      existsb is_app_run (w_trace (fst (run_main env fs))) = true)
  /\ w_fs (fst (run_main env fs)) = fs.
Proof.
  assert (Hexists : forall f,
             pathlib.exists_ fs (project_root_of env // f) = true
             <-> os.stat fs (pathlib.fspath (project_root_of env // f)) <> None).
  { intro f. unfold pathlib.exists_, os.exists_.
    destruct (os.stat fs _); split; congruence. }
  assert (Hiff : existsb is_app_run (w_trace (fst (run_main env fs))) = true
                 <-> forall f, In f required_files ->
                       os.stat fs (pathlib.fspath (project_root_of env // f)) <> None).
  { destruct (missing_of fs (project_root_of env)) as [|m ms] eqn:E.
    - rewrite (run_main_valid _ _ E). cbn [fst w_trace].
      split; [|intros _; apply startup_runs].
      intros _ f Hf. apply Hexists. rewrite missing_nil_iff in E. now apply E.
    - rewrite (run_main_missing _ _ _ _ E). cbn [fst w_trace].
      rewrite existsb_app, checks_only_stat by reflexivity.
      cbn [existsb is_app_run orb].
      rewrite existsb_prints by reflexivity.
      split; [discriminate|].
      intro H. assert (Hnil : missing_of fs (project_root_of env) = []).
      { apply missing_nil_iff. intros f Hf. apply Hexists. now apply H. }
      congruence. }
  split; [exact Hiff|]. split.
  - intro H. apply Hiff. intros f Hf. rewrite (H f Hf). discriminate.
  - destruct (missing_of fs (project_root_of env)) as [|m ms] eqn:E.
    + now rewrite (run_main_valid _ _ E).
    + now rewrite (run_main_missing _ _ _ _ E).
Qed.

Lemma validation_tests_existence_only_witness :
  existsb is_app_run
    (w_trace (fst (run_main (Sample.env (OpenReturns true) RunReturns)
                            Sample.directories))) = true.
Proof.
  destruct (validation_tests_existence_only
              (Sample.env (OpenReturns true) RunReturns) Sample.directories)
    as (_ & H & _).
  apply H. intros f [<-|[<-|[<-|[<-|[]]]]]; reflexivity.
Defined.

(** ** The browser task *)

Lemma open_browser_run (env : environment) (fs : filesystem) :
  open_browser env (start fs)
  = (mkWorld fs
       (Sleep 1500 :: WebbrowserOpen "http://localhost:5000"
        :: match browser env with
           | OpenReturns _ => [Print "Browser opened successfully!"]
           | OpenRaises message =>
               [Print ("Could not open browser automatically: " ++ message);
                Print "Please open http://localhost:5000 in your browser"]
           end),
     inl tt).
Proof.
  unfold open_browser, try_except, bind, time_sleep, webbrowser_open, bind, emit,
    print, emit.
  cbn [start w_fs w_trace app].
  destruct (browser env); reflexivity.
Qed.

(** The task never raises, whatever the host answers. *)
Lemma open_browser_completes (env : environment) (fs : filesystem) :
  snd (open_browser env (start fs)) = inl tt.
Proof. now rewrite open_browser_run. Qed.

(** The browser is asked exactly once, after the sleep. *)
Lemma open_browser_asks_once (env : environment) (fs : filesystem) :
  exists rest,
    w_trace (fst (open_browser env (start fs)))
    = Sleep 1500 :: WebbrowserOpen "http://localhost:5000" :: rest
    /\ existsb is_webbrowser_open rest = false.
Proof.
  rewrite open_browser_run. cbn [fst w_trace].
  eexists. split; [reflexivity|]. now destruct (browser env).
Qed.

(** What [main] does is the same whatever becomes of the browser. *)
Lemma main_ignores_browser (file : string) (b b' : open_result) (s : run_result)
    (fs : filesystem) :
  run_main (mkEnv file b s) fs = run_main (mkEnv file b' s) fs.
Proof. reflexivity. Qed.

(** C7 fails on the code when no browser can be opened and
    [webbrowser.open] says so by returning [False]: the task sleeps, asks
    once, and then prints the message of success; the instruction to open
    the page by hand is not printed. *)
Theorem open_browser_false_return (script0 : string) (s : run_result) (fs : filesystem) :
  open_browser (mkEnv script0 (OpenReturns false) s) (start fs)
  = (mkWorld fs [Sleep 1500; WebbrowserOpen "http://localhost:5000";
                 Print "Browser opened successfully!"],
     inl tt)
  /\ ~ In (Print "Please open http://localhost:5000 in your browser")
          (w_trace (fst (open_browser (mkEnv script0 (OpenReturns false) s) (start fs)))).
Proof.
  rewrite open_browser_run. cbn [browser fst w_trace].
  split; [reflexivity|].
  intros [H|[H|[H|[]]]]; discriminate H.
Qed.

(** C9: the instruction to open the page by hand is printed only when
    [webbrowser.open] raises; whenever it returns, with [True] or with
    [False], the task prints the message of success and nothing else. *)
Theorem success_message_unless_raises (env : environment) (fs : filesystem) :
  (In (Print "Please open http://localhost:5000 in your browser")
      (w_trace (fst (open_browser env (start fs))))
   <-> exists message, browser env = OpenRaises message)
  /\ (forall launched,
      browser env = OpenReturns launched ->
      w_trace (fst (open_browser env (start fs)))
      = [Sleep 1500; WebbrowserOpen "http://localhost:5000";
         Print "Browser opened successfully!"]).
Proof.
  rewrite open_browser_run. cbn [fst w_trace].
  destruct (browser env) as [launched|message].
  - split.
    + split.
      * intros [H|[H|[H|[]]]]; discriminate H.
      * intros [message H]. discriminate H.
    + intros _ _. reflexivity.
  - split.
    + split; [intros _; now exists message|].
      intros _. right. right. right. left. reflexivity.
    + intros launched H. discriminate H.
Qed.

Lemma success_message_unless_raises_witness :
  w_trace (fst (open_browser (Sample.env (OpenReturns false) RunReturns)
                  (start Sample.installed)))
  = [Sleep 1500; WebbrowserOpen "http://localhost:5000";
     Print "Browser opened successfully!"]
  /\ In (Print "Please open http://localhost:5000 in your browser")
        (w_trace (fst (open_browser (Sample.env (OpenRaises "no display") RunReturns)
                         (start Sample.installed)))).
Proof.
  split.
  - destruct (success_message_unless_raises
                (Sample.env (OpenReturns false) RunReturns) Sample.installed)
      as [_ H].
    apply (H false). reflexivity.
  - destruct (success_message_unless_raises
                (Sample.env (OpenRaises "no display") RunReturns) Sample.installed)
      as [[_ H] _].
    apply H. now exists "no display".
Defined.

(** * Further properties of the script *)

(** ** File names and their normal form *)

Lemma climb_free_plain (names : list string) :
  Forall (fun c => plain c = true) names -> forall d, climb_free d names = true.
Proof.
  induction 1 as [|c names Hc _ IH]; intro d; [reflexivity|].
  cbn [climb_free].
  now rewrite (plain_not_curdir _ Hc), (plain_not_pardir _ Hc).
Qed.

(** The normal form of a file name that stays inside is the names it
    descends through, joined; [.] when there are none. *)
Lemma normpath_inside (f : string) :
  stays_inside f = true ->
  exists names,
    Forall (fun c => plain c = true) names
    /\ posixpath.normpath f = match names with [] => "." | _ => Str.join names end
    /\ forall D, os.walk D (Str.split f) = D ++ names.
Proof.
  unfold stays_inside. intro H. apply andb_true_iff in H as [Hrel Hcf].
  apply negb_true_iff in Hrel.
  set (names := rev (posixpath.normpath_loop 0 (Str.split f) [])).
  assert (Hwalk : forall D, os.walk D (Str.split f) = D ++ names).
  { intro D.
    destruct (loop_inside D (Str.split f) [] (split_slash_free f) (Forall_nil _) Hcf)
      as [_ Hw].
    cbn [rev] in Hw. now rewrite app_nil_r in Hw. }
  assert (Hnames : Forall (fun c => plain c = true) names).
  { apply Forall_rev.
    now destruct (loop_inside [] (Str.split f) [] (split_slash_free f)
                    (Forall_nil _) Hcf). }
  exists names. split; [exact Hnames|]. split; [|exact Hwalk].
  unfold posixpath.normpath.
  destruct (String.eqb f "") eqn:Ef.
  - apply String.eqb_eq in Ef. subst f. reflexivity.
  - rewrite (initial_slashes_relative _ Hrel). fold names.
    cbn [posixpath.seps String.append].
    destruct names as [|c r]; [reflexivity|].
    inversion Hnames as [|? ? Hc Hr]; subst.
    destruct (join_head_checks c r Hc) as (Hne & _).
    now rewrite Hne.
Qed.

Lemma stays_inside_normpath (f : string) :
  stays_inside (posixpath.normpath f) = stays_inside f.
Proof.
  destruct (stays_inside f) eqn:E.
  - destruct (normpath_inside f E) as (names & Hnames & -> & _).
    destruct names as [|c r]; [reflexivity|].
    inversion Hnames as [|? ? Hc Hr]; subst.
    destruct (join_head_checks c r Hc) as (_ & Habs & _).
    unfold stays_inside. rewrite Habs.
    rewrite split_join; [|discriminate|now apply plain_slash_free].
    now rewrite (climb_free_plain _ Hnames).
  - unfold stays_inside in E.
    destruct (Str.startswith "/" f) eqn:Eabs.
    + unfold stays_inside. now rewrite (normpath_absolute _ Eabs).
    + cbn [negb andb] in E.
      destruct (String.eqb f "") eqn:Ef.
      { apply String.eqb_eq in Ef. subst f. discriminate. }
      destruct (loop_climb (Str.split f) [] (Forall_nil _) E) as [s' Hs'].
      unfold posixpath.normpath.
      rewrite Ef, (initial_slashes_relative _ Eabs), Hs', rev_app_distr.
      cbn [rev app posixpath.seps String.append].
      destruct (join_pardir_first (rev s')) as [Hne _]. rewrite Hne.
      destruct (rev s') as [|x l]; [reflexivity|].
      change (Str.join (".." :: x :: l))
        with (".." ++ String Str.slash (Str.join (x :: l)))%string.
      unfold stays_inside. rewrite split_app_slash.
      change (Str.split "..") with [".."]. cbn [app climb_free].
      change (posixpath.curdir "..") with false.
      change (posixpath.pardir "..") with true.
      cbn iota. apply andb_false_r.
Qed.

Lemma resolve_inside (directory : pathlib.Path) (f : string) :
  Str.startswith "/" f = false ->
  resolve directory f
  = os.walk (os.canonical (pathlib.fspath directory)) (Str.split f).
Proof. intro H. unfold resolve. now rewrite canonical_join. Qed.

Lemma resolve_normpath (directory : pathlib.Path) (f : string) :
  stays_inside f = true ->
  resolve directory (posixpath.normpath f) = resolve directory f.
Proof.
  intro E.
  assert (En : stays_inside (posixpath.normpath f) = true)
    by now rewrite stays_inside_normpath.
  assert (Hrel : Str.startswith "/" f = false).
  { unfold stays_inside in E. apply andb_true_iff in E as [E _].
    now apply negb_true_iff in E. }
  assert (Hreln : Str.startswith "/" (posixpath.normpath f) = false).
  { unfold stays_inside in En. apply andb_true_iff in En as [En _].
    now apply negb_true_iff in En. }
  rewrite (resolve_inside _ _ Hrel), (resolve_inside _ _ Hreln).
  destruct (normpath_inside f E) as (names & Hnames & Hn & Hwalk).
  rewrite Hwalk, Hn.
  destruct names as [|c r].
  - cbn. now rewrite app_nil_r.
  - rewrite split_join; [|discriminate|now apply plain_slash_free].
    now apply walk_plain.
Qed.

Lemma send_normalised (fs : filesystem) (directory : pathlib.Path) (f : string) :
  werkzeug.send_from_directory fs directory (posixpath.normpath f)
  = werkzeug.send_from_directory fs directory f.
Proof.
  destruct (stays_inside f) eqn:E.
  - rewrite (send_inside fs directory f E).
    rewrite send_inside by now rewrite stays_inside_normpath.
    now rewrite (resolve_normpath _ _ E).
  - rewrite (send_refused fs directory f E).
    apply send_refused. now rewrite stays_inside_normpath.
Qed.

Lemma send_answer (fs : filesystem) (directory : pathlib.Path) (f : string) :
  stays_inside f = true ->
  werkzeug.send_from_directory fs directory f = answer_of (fs (resolve directory f)).
Proof. intro H. now rewrite (send_inside _ _ _ H). Qed.



(** ** The views *)

(** X1: whatever content a request is answered with is the content of
    [pages/index.html], of [pages/dashboard.html], or of an entry inside
    the [js], the [data] or the [static] directory beside the script:
    nothing else of the project (the script itself, say) is ever sent. *)
Theorem served_content_provenance
    (fs : filesystem) (project_root : pathlib.Path) (path_info : string) (b : bytes) :
  full_dispatch_request fs project_root path_info = mkResponse 200 (Content b) ->
  exists p,
    fs p = Some (File b)
    /\ (p = os.canonical (pathlib.fspath (project_root // "pages/index.html"))
        \/ p = os.canonical (pathlib.fspath (project_root // "pages/dashboard.html"))
        \/ inside (project_root // "js") p = true
        \/ inside (project_root // "data") p = true
        \/ inside (project_root // "static") p = true).
Proof.
  unfold full_dispatch_request.
  destruct (route path_info) as [e|q|]; [|discriminate|discriminate].
  intro H'.
  assert (Hpage : forall name,
             Str.startswith "/" name = false ->
             werkzeug.send_from_directory fs (project_root // "pages") name
             = mkResponse 200 (Content b) ->
             fs (os.canonical (pathlib.fspath (project_root ++ ["pages"; name])))
             = Some (File b)).
  { intros name Hrel Hs. destruct (send_content_inside _ _ _ _ Hs) as [_ Hf].
    change (project_root // "pages") with (project_root ++ ["pages"]) in Hf.
    rewrite (resolve_name _ _ Hrel), <- app_assoc in Hf. exact Hf. }
  destruct e as [| |location|filename|filename|filename]; cbn [view] in H'.
  - eexists. split; [apply (Hpage "index.html" eq_refl H')|]. now left.
  - eexists. split; [apply (Hpage "dashboard.html" eq_refl H')|]. right. now left.
  - eexists. split; [apply (Hpage "dashboard.html" eq_refl H')|]. right. now left.
  - destruct (send_content_inside _ _ _ _ H') as [Hi Hf].
    eexists. split; [exact Hf|]. right. right. now left.
  - destruct (send_content_inside _ _ _ _ H') as [Hi Hf].
    eexists. split; [exact Hf|]. right. right. right. now left.
  - destruct (send_content_inside _ _ _ _ H') as [Hi Hf].
    eexists. split; [exact Hf|]. right. right. right. now right.
Qed.

Lemma served_content_provenance_witness :
  exists p,
    Sample.installed p = Some (File Sample.js)
    /\ (p = os.canonical (pathlib.fspath (Sample.root // "pages/index.html"))
        \/ p = os.canonical (pathlib.fspath (Sample.root // "pages/dashboard.html"))
        \/ inside (Sample.root // "js") p = true
        \/ inside (Sample.root // "data") p = true
        \/ inside (Sample.root // "static") p = true).
Proof.
  apply (served_content_provenance Sample.installed Sample.root
           "///js/data-manager.js" Sample.js).
  reflexivity.
Defined.

(** X3: the answer to a file name is the answer to its normal form: empty
    and [.] segments, doubled slashes and [name/..] pairs in the file name
    of [/js/...] and [/data/...] change nothing. *)
Theorem views_ignore_redundant_segments
    (fs : filesystem) (project_root : pathlib.Path) (filename : string) :
  js_files fs project_root (posixpath.normpath filename)
  = js_files fs project_root filename
  /\ data_files fs project_root (posixpath.normpath filename)
     = data_files fs project_root filename.
Proof. unfold js_files, data_files. split; apply send_normalised. Qed.

(** X4: what [js_files] and [data_files] answer, in full: for a file name
    that is relative and never steps above the base directory, the entry it
    resolves to decides (a regular file is sent with status 200, anything
    else is 404); every other file name is answered 404 without a look at
    the file system, also when it ends on an existing file of the
    directory. *)
Theorem file_views_characterised
    (fs : filesystem) (project_root : pathlib.Path) (filename : string) :
  js_files fs project_root filename
  = (if stays_inside filename
     then answer_of (fs (resolve (project_root // "js") filename))
     else werkzeug.NotFound)
  /\ data_files fs project_root filename
     = (if stays_inside filename
        then answer_of (fs (resolve (project_root // "data") filename))
        else werkzeug.NotFound).
Proof.
  unfold js_files, data_files.
  destruct (stays_inside filename) eqn:E.
  - split; now apply send_answer.
  - split; now apply send_refused.
Qed.

(** ** Start-up and router together *)

Lemma served_answer (env : environment) (fs : filesystem) (f u : string) :
  In (f, u) served_at ->
  create_app env fs u
  = Some (answer_of (os.stat fs (pathlib.fspath (project_root_of env // f)))).
Proof.
  assert (Hsend : forall d name,
             Str.startswith "/" name = false -> stays_inside name = true ->
             werkzeug.send_from_directory fs (project_root_of env ++ [d]) name
             = answer_of (os.stat fs (pathlib.fspath (project_root_of env ++ [d; name])))).
  { intros d name Hrel Hin. rewrite (send_answer _ _ _ Hin).
    now rewrite (resolve_name _ _ Hrel), <- app_assoc. }
  unfold create_app.
  intros [H|[H|[H|[H|[]]]]]; inversion H; subst f u.
  - rewrite get_index. f_equal. apply (Hsend "pages" "index.html"); reflexivity.
  - rewrite get_dashboard. f_equal. apply (Hsend "pages" "dashboard.html"); reflexivity.
  - rewrite (get_js_files fs _ "data-manager.js" eq_refl). f_equal.
    apply (Hsend "js" "data-manager.js"); reflexivity.
  - rewrite (get_data_files fs _ "locations.json" eq_refl). f_equal.
    apply (Hsend "data" "locations.json"); reflexivity.
Qed.

(** X5: each path that start-up checks is the file one URL serves: the
    application built by [create_app] answers [/], [/dashboard],
    [/js/data-manager.js] and [/data/locations.json] from the very entry
    that [main] tested, with 200 and its bytes if it is a regular file and
    with 404 otherwise. *)
Theorem required_urls_answer (env : environment) (fs : filesystem) (f u : string) :
  In (f, u) served_at ->
  In f required_files
  /\ create_app env fs u
     = Some (answer_of (os.stat fs (pathlib.fspath (project_root_of env // f)))).
Proof.
  intro H. split; [|now apply served_answer].
  destruct H as [H|[H|[H|[H|[]]]]]; inversion H; subst f u; cbn; tauto.
Qed.

Lemma required_urls_answer_witness :
  create_app (Sample.env (OpenReturns true) RunReturns) Sample.installed
    "/data/locations.json"
  = Some (mkResponse 200 (Content Sample.json)).
Proof.
  apply (required_urls_answer (Sample.env (OpenReturns true) RunReturns)
           Sample.installed "data/locations.json" "/data/locations.json").
  right. right. right. left. reflexivity.
Defined.

(** X6: passing the start-up check does not make the pages available: with
    a directory at each required path the server is started, and the four
    URLs of the required files are all answered with 404. *)
Theorem directories_pass_check_but_404 (env : environment) (fs : filesystem) :
  (forall f, In f required_files ->
             os.stat fs (pathlib.fspath (project_root_of env // f)) = Some Dir) ->
  existsb is_app_run (w_trace (fst (run_main env fs))) = true
  /\ forall f u, In (f, u) served_at ->
                 create_app env fs u = Some werkzeug.NotFound.
Proof.
  intro H. split.
  - assert (E : missing_of fs (project_root_of env) = []).
    { apply missing_nil_iff. intros f Hf.
      unfold pathlib.exists_, os.exists_. now rewrite (H f Hf). }
    rewrite (run_main_valid _ _ E). apply startup_runs.
  - intros f u Hfu. rewrite (served_answer env fs f u Hfu).
    rewrite H; [reflexivity|].
    destruct Hfu as [E|[E|[E|[E|[]]]]]; inversion E; subst f u; cbn; tauto.
Qed.

Lemma directories_pass_check_but_404_witness :
  existsb is_app_run
    (w_trace (fst (run_main (Sample.env (OpenReturns true) RunReturns)
                            Sample.directories))) = true
  /\ create_app (Sample.env (OpenReturns true) RunReturns) Sample.directories "/"
     = Some werkzeug.NotFound.
Proof.
  destruct (directories_pass_check_but_404
              (Sample.env (OpenReturns true) RunReturns) Sample.directories)
    as [H1 H2].
  - intros f [<-|[<-|[<-|[<-|[]]]]]; reflexivity.
  - split; [exact H1|]. apply (H2 "pages/index.html" "/"). left. reflexivity.
Defined.

(** ** Ways out of main *)

(** X7: [main] ends normally or by [SystemExit(1)], never by a
    [KeyboardInterrupt] or by another exception, so the exit status of the
    script is 0 or 1 and never that of a traceback.  It ends by
    [SystemExit(1)] exactly when a required file is missing, when an
    [Exception] leaves [app.run] (the handler turns it into the exit), or
    when the port is taken (the exit of the server itself, which no handler
    of [main] catches). *)
Theorem main_exits_cleanly (env : environment) (fs : filesystem) :
  (snd (main env (start fs)) = inl tt
   \/ snd (main env (start fs)) = inr (SystemExit 1))
  /\ (snd (run_main env fs) = 0%Z \/ snd (run_main env fs) = 1%Z)
  /\ (snd (main env (start fs)) = inr (SystemExit 1)
      <-> missing_of fs (project_root_of env) <> []
          \/ (exists message, serving env = RunFails message)
          \/ serving env = RunAddressInUse).
Proof.
  destruct (missing_of fs (project_root_of env)) as [|m ms] eqn:E.
  - rewrite (run_main_valid _ _ E), (main_valid _ _ E). cbn [snd].
    destruct (serving env) as [| |message| |]; cbn [outcome exit_status];
      (split; [auto|split; [auto|]]).
    + split; [discriminate|]. intros [H|[[x H]|H]]; [congruence|discriminate..].
    + split; [discriminate|]. intros [H|[[x H]|H]]; [congruence|discriminate..].
    + split; [|reflexivity]. intros _. right. left. now exists message.
    + split; [discriminate|]. intros [H|[[x H]|H]]; [congruence|discriminate..].
    + split; [|reflexivity]. intros _. right. now right.
  - rewrite (run_main_missing _ _ _ _ E), (main_missing _ _ _ _ E). cbn [snd].
    split; [auto|split; [auto|]].
    split; [|reflexivity]. intros _. left. discriminate.
Qed.

(** X8: when validation fails, everything [main] does is: the four checks,
    the error line, and one line for each missing file and for no other,
    in the order of the list of required files. *)
Theorem failure_report_exact (env : environment) (fs : filesystem) :
  missing_of fs (project_root_of env) <> [] ->
  w_trace (fst (run_main env fs))
  = checks (project_root_of env)
    ++ Print "Error: Missing required files!"
       :: map (fun f => Print ("  - " ++ f)) (missing_of fs (project_root_of env)).
Proof.
  intro H.
  destruct (missing_of fs (project_root_of env)) as [|m ms] eqn:E; [congruence|].
  now rewrite (run_main_missing _ _ _ _ E).
Qed.

Lemma failure_report_exact_witness :
  w_trace (fst (run_main (Sample.env (OpenReturns true) RunReturns) Sample.incomplete))
  = [Stat "/srv/app/pages/index.html"; Stat "/srv/app/pages/dashboard.html";
     Stat "/srv/app/js/data-manager.js"; Stat "/srv/app/data/locations.json";
     Print "Error: Missing required files!";
     Print "  - pages/dashboard.html"; Print "  - data/locations.json"].
Proof.
  rewrite (failure_report_exact (Sample.env (OpenReturns true) RunReturns)
             Sample.incomplete).
  - reflexivity.
  - discriminate.
Defined.

(** ** The browser task and the server *)

(** X9: whatever [webbrowser.open] does, return or raise, the browser task
    ends without an exception, having slept 1.5 s and then asked for the
    browser exactly once; and what [main] does and returns is the same for
    every outcome of the browser. *)
Theorem browser_task_contained (env : environment) (fs : filesystem) :
  snd (open_browser env (start fs)) = inl tt
  /\ (exists rest,
        w_trace (fst (open_browser env (start fs)))
        = Sleep 1500 :: WebbrowserOpen "http://localhost:5000" :: rest
        /\ existsb is_webbrowser_open rest = false)
  /\ w_fs (fst (open_browser env (start fs))) = fs
  /\ forall b, run_main (mkEnv (script env) b (serving env)) fs = run_main env fs.
Proof.
  rewrite open_browser_run. cbn [fst snd w_trace w_fs].
  split; [reflexivity|]. split.
  - eexists. split; [reflexivity|]. now destruct (browser env).
  - split; [reflexivity|]. intro b. now destruct env.
Qed.

(** ** The script as a whole *)

Lemma app_py_with_flask (name : string) (env : environment) (w : world) :
  app_py true name env w
  = if String.eqb name "__main__" then main env w else (w, inl tt).
Proof. unfold app_py, bind, ret. now destruct (String.eqb name "__main__"). Qed.

(** X10: without Flask the script prints its two lines of advice and exits
    with status 1 before it looks at any file; run as a module it does
    nothing; so the server is started exactly when Flask is installed, the
    script is the main module and the four required paths exist; and the
    exit status is 0 or 1 in every case. *)
Theorem script_starts_server_iff
    (flask_installed : bool) (name : string) (env : environment) (fs : filesystem) :
  (existsb is_app_run (w_trace (fst (run_app_py flask_installed name env fs))) = true
   <-> flask_installed = true
       /\ name = "__main__"
       /\ forall f, In f required_files ->
                    pathlib.exists_ fs (project_root_of env // f) = true)
  /\ (flask_installed = false ->
      run_app_py flask_installed name env fs
      = (mkWorld fs [Print "Error: Flask is required to run this application.";
                     Print "Install it with: pip install flask"],
         1%Z))
  /\ (flask_installed = true -> name <> "__main__" ->
      run_app_py flask_installed name env fs = (mkWorld fs [], 0%Z))
  /\ (snd (run_app_py flask_installed name env fs) = 0%Z
      \/ snd (run_app_py flask_installed name env fs) = 1%Z).
Proof.
  destruct flask_installed.
  - unfold run_app_py. rewrite app_py_with_flask.
    destruct (String.eqb name "__main__") eqn:En.
    + apply String.eqb_eq in En. subst name.
      fold (run_main env fs).
      destruct (missing_of fs (project_root_of env)) as [|m ms] eqn:E.
      * rewrite (run_main_valid _ _ E). cbn [fst snd w_trace].
        split; [|split; [discriminate|split; [congruence|]]].
        -- split; [|intros _; apply startup_runs].
           intros _. split; [reflexivity|]. split; [reflexivity|].
           now apply missing_nil_iff.
        -- destruct (serving env); cbn; auto.
      * rewrite (run_main_missing _ _ _ _ E). cbn [fst snd w_trace].
        split; [|split; [discriminate|split; [congruence|now right]]].
        rewrite existsb_app, checks_only_stat by reflexivity.
        cbn [existsb is_app_run orb].
        rewrite (existsb_prints is_app_run (fun f => ("  - " ++ f)%string) (m :: ms))
          by reflexivity.
        split; [discriminate|]. intros (_ & _ & H).
        apply missing_nil_iff in H. congruence.
    + apply String.eqb_neq in En. cbn [start fst snd w_trace exit_status existsb].
      split; [|split; [discriminate|split; [reflexivity|now left]]].
      split; [discriminate|]. intros (_ & H & _). contradiction.
  - split; [|split; [reflexivity|split; [discriminate|now right]]].
    split; [discriminate|]. intros [H _]. discriminate.
Qed.

Lemma script_starts_server_iff_witness :
  existsb is_app_run
    (w_trace (fst (run_app_py true "__main__"
                     (Sample.env (OpenReturns true) RunInterrupted)
                     Sample.installed))) = true
  /\ snd (run_app_py false "__main__"
            (Sample.env (OpenReturns true) RunInterrupted) Sample.installed) = 1%Z
  /\ run_app_py true "app" (Sample.env (OpenReturns true) RunInterrupted)
       Sample.installed
     = (mkWorld Sample.installed [], 0%Z).
Proof.
  split; [|split].
  - destruct (script_starts_server_iff true "__main__"
                (Sample.env (OpenReturns true) RunInterrupted) Sample.installed)
      as ([_ H] & _).
    apply H. split; [reflexivity|]. split; [reflexivity|].
    intros f [<-|[<-|[<-|[<-|[]]]]]; reflexivity.
  - destruct (script_starts_server_iff false "__main__"
                (Sample.env (OpenReturns true) RunInterrupted) Sample.installed)
      as (_ & H & _).
    now rewrite H.
  - destruct (script_starts_server_iff true "app"
                (Sample.env (OpenReturns true) RunInterrupted) Sample.installed)
      as (_ & _ & H & _).
    apply H; [reflexivity|discriminate].
Defined.
